(** * hyperparameter_utils.py: random hyperparameter search

    A shallow embedding of [sample_hyperparameters] and [train_and_evaluate].

    Python objects live in a heap indexed by locations, so that a dict or a
    list passed to a function is the caller's object and not a copy.  The
    interpreter state holds the heap, the state of the [random] module, the
    state of the numerical framework (model, optimizer, torch generator) and
    the log of the calls made into that framework.  Functions are state
    transformers that either return a value or raise. *)

From Stdlib Require Import ZArith List Lia Floats.SpecFloat.
From stdpp Require Import gmap strings list fin_maps.

Open Scope string_scope.
Open Scope list_scope.

(** ** Values and heap objects *)

Abbreviation loc := positive.

(** Python floats are IEEE 754 binary64. *)
Abbreviation float := spec_float.
Definition prec : Z := 53.
Definition emax : Z := 1024.

Definition float_inf : float := S754_infinity false.   (* float('inf') *)
Definition float_zero : float := S754_zero false.      (* 0.0 *)
Definition float_0_01 : float := S754_finite false 5764607523034235 (-59).   (* 0.01 *)

Definition float_add (x y : float) : float := SFadd prec emax x y.
Definition float_lt (x y : float) : bool := SFltb x y.
Definition float_le (x y : float) : bool := SFleb x y.


Definition is_nan (x : float) : bool :=
  match x with
  | S754_nan => true
  | _ => false
  end.

Inductive val :=
| VInt (z : Z)
| VFloat (f : float)
| VStr (s : string)
| VRef (l : loc).

Inductive obj :=
| OList (xs : list val)
| ODict (d : gmap string val).

Inductive exn :=
| KeyError (k : val)
| IndexError
| TypeError
| ZeroDivisionError
| SystemError.   (* a reference to no object: unreachable from Python code *)

Inductive result (A : Type) :=
| Ok (a : A)
| Raise (e : exn).
Arguments Ok {A} a.
Arguments Raise {A} e.

(** ** The collaborators *)

(** The [random] module: [_randbelow n] returns an index below [n]. *)
Class RandomSource (R : Type) := {
  randbelow : R -> nat -> nat * R;
  randbelow_lt : forall r n, 0 < n -> fst (randbelow r n) < n
}.

(** The calls the code makes to [print] and into the numerical framework,
    in the order of the source text. *)
Inductive op (B D : Type) :=
| Print (label : string) (v : val)
| ModelInit (input_dim hidden_layers dropout_rate : val)
| AdamInit (lr : val)
| LoaderInit (ds : D) (batch_size : val) (shuffle : bool)
| ModelTrain
| ModelEval
| NoGradEnter
| NoGradExit
| Forward (b : B)
| Criterion (b : B)
| ZeroGrad
| Backward
| OptStep.
Arguments Print {B D}.
Arguments ModelInit {B D}.
Arguments AdamInit {B D}.
Arguments LoaderInit {B D}.
Arguments ModelTrain {B D}.
Arguments ModelEval {B D}.
Arguments NoGradEnter {B D}.
Arguments NoGradExit {B D}.
Arguments Forward {B D}.
Arguments Criterion {B D}.
Arguments ZeroGrad {B D}.
Arguments Backward {B D}.
Arguments OptStep {B D}.

(** The framework is a black box: [W] is everything it owns (weights,
    gradients, optimizer moments, mode flag, torch generator, the last loss
    tensor, the console).  A call may read the Python heap and changes [W]
    only; it always returns: an exception raised inside the framework (a
    shape mismatch, a batch size that is not a positive int) is outside the
    model.  [fw_item] is [loss.item()].  [fw_batches ds bs] are the batches
    one pass over [DataLoader(ds, batch_size=bs)] yields, in order, and their
    number is the [len()] of that loader; [fw_shuffled] is one pass over the
    shuffling loader, which draws from the torch generator. *)
Class Framework (W B D : Type) := {
  fw_exec : gmap loc obj -> op B D -> W -> W;
  fw_item : W -> float;
  fw_batches : D -> val -> list B;
  fw_shuffled : D -> val -> W -> list B * W
}.

(** ** Interpreter state and the monad of Python code *)

Record state (R W B D : Type) := State {
  heap : gmap loc obj;
  rand : R;
  world : W;
  log : list (op B D)
}.
Arguments State {R W B D}.
Arguments heap {R W B D}.
Arguments rand {R W B D}.
Arguments world {R W B D}.
Arguments log {R W B D}.

Section Interp.
Context {R W B D : Type}.

Abbreviation st := (state R W B D).

Definition M (A : Type) : Type := st -> result A * st.

Definition ret {A} (a : A) : M A := fun s => (Ok a, s).

Definition bind {A C} (m : M A) (k : A -> M C) : M C :=
  fun s =>
    match m s with
    | (Ok a, s') => k a s'
    | (Raise e, s') => (Raise e, s')
    end.

Definition lift {A} (r : result A) : M A := fun s => (r, s).

(** [obj[key]] with a string key. *)
Definition getitem (o : val) (k : string) : M val :=
  fun s =>
    match o with
    | VRef l =>
        match heap s !! l with
        | Some (ODict d) =>
            match d !! k with
            | Some v => (Ok v, s)
            | None => (Raise (KeyError (VStr k)), s)
            end
        | Some (OList _) => (Raise TypeError, s)
        | None => (Raise SystemError, s)
        end
    | VInt _ | VFloat _ | VStr _ => (Raise TypeError, s)
    end.

(** A dict display [{k1: v1, ...}] allocates a new object. *)
Definition new_dict (kvs : list (string * val)) : M val :=
  fun s =>
    let l := fresh (dom (heap s)) in
    (Ok (VRef l),
     State (<[l := ODict (list_to_map kvs)]> (heap s)) (rand s) (world s) (log s)).

End Interp.

Notation "'let*' x ':=' m 'in' k" := (bind m (fun x => k))
  (at level 10, x name, m at level 100, k at level 200).

(** ** random.choice *)

Section Sampler.
Context {R W B D : Type} `{!RandomSource R}.

Definition set_rand (r : R) (s : state R W B D) : state R W B D :=
  State (heap s) r (world s) (log s).

(** [seq[i]] for the index [random.choice] has drawn, [i < len(seq)]. *)
Definition choice_index (o : obj) (i : nat) : result val :=
  match o with
  | OList xs =>
      match xs !! i with
      | Some v => Ok v
      | None => Raise IndexError
      end
  | ODict d => Raise (KeyError (VInt (Z.of_nat i)))
  end.

Definition obj_len (o : obj) : nat :=
  match o with
  | OList xs => length xs
  | ODict d => size d
  end.

(** [random.choice(seq)]: IndexError on an empty sequence, else
    [seq[self._randbelow(len(seq))]].  A dict has a length but no integer
    key, a string yields one of its characters. *)
Definition random_choice (seq : val) : M (R:=R) (W:=W) (B:=B) (D:=D) val :=
  fun s =>
    match seq with
    | VRef l =>
        match heap s !! l with
        | Some o =>
            if Nat.eqb (obj_len o) 0 then (Raise IndexError, s)
            else
              let (i, r') := randbelow (rand s) (obj_len o) in
              (choice_index o i, set_rand r' s)
        | None => (Raise SystemError, s)
        end
    | VStr str =>
        if Nat.eqb (String.length str) 0 then (Raise IndexError, s)
        else
          let (i, r') := randbelow (rand s) (String.length str) in
          (match String.get i str with
           | Some c => Ok (VStr (String c EmptyString))
           | None => Raise IndexError
           end, set_rand r' s)
    | VInt _ | VFloat _ => (Raise TypeError, s)
    end.

Definition sample_hyperparameters (param_space : val)
  : M (R:=R) (W:=W) (B:=B) (D:=D) val :=
  let* c1 := getitem param_space "hidden_layers" in
  let* hidden_layers := random_choice c1 in
  let* c2 := getitem param_space "dropout_rate" in
  let* dropout_rate := random_choice c2 in
  let* c3 := getitem param_space "learning_rate" in
  let* learning_rate := random_choice c3 in
  let* c4 := getitem param_space "batch_size" in
  let* batch_size := random_choice c4 in
  new_dict [("hidden_layers", hidden_layers);
            ("dropout_rate", dropout_rate);
            ("learning_rate", learning_rate);
            ("batch_size", batch_size)].

End Sampler.

(** ** Float arithmetic of the averaging step *)

(** [float(n)] for a Python int (round to nearest even). *)
Definition float_of_int (n : Z) : float := binary_normalize prec emax n 0 false.

(** [x / n] for a float [x] and an int [n]: the int is converted to a float,
    a zero divisor raises.  [n] is a [len()] here, hence below [2^63], and
    the conversion cannot overflow. *)
Definition float_truediv_int (x : float) (n : Z) : result float :=
  if Z.eqb n 0 then Raise ZeroDivisionError
  else Ok (SFdiv prec emax x (float_of_int n)).

(** ** train_and_evaluate *)

Section Trainer.
Context {R W B D : Type} `{!Framework W B D}.

Local Abbreviation St := (state R W B D).
Local Abbreviation Py := (M (R:=R) (W:=W) (B:=B) (D:=D)).

(** A call into the framework: logged, and applied to the framework state. *)
Definition call (o : op B D) : Py unit :=
  fun s =>
    (Ok tt, State (heap s) (rand s) (fw_exec (heap s) o (world s)) (log s ++ [o])).

(** [loss.item()] *)
Definition loss_item : Py float :=
  fun s => (Ok (fw_item (world s)), s).

(** One pass over [train_loader] (shuffle=True). *)
Definition iter_train_loader (ds : D) (batch_size : val) : Py (list B) :=
  fun s =>
    let (bs, w') := fw_shuffled ds batch_size (world s) in
    (Ok bs, State (heap s) (rand s) w' (log s)).

(** [len(validate_loader)]: the number of batches a pass yields. *)
Definition loader_len (ds : D) (batch_size : val) : Z :=
  Z.of_nat (length (fw_batches ds batch_size)).

(** [for x in xs: body(x)] *)
Fixpoint for_each {A} (xs : list A) (body : A -> Py unit) : Py unit :=
  match xs with
  | [] => ret tt
  | x :: xs' => let* _ := body x in for_each xs' body
  end.

(** [for x in xs: acc = body(x, acc)] *)
Fixpoint for_fold {A S} (xs : list A) (acc : S) (body : A -> S -> Py S) : Py S :=
  match xs with
  | [] => ret acc
  | x :: xs' => let* acc' := body x acc in for_fold xs' acc' body
  end.

(** Lines 56-60. *)
Definition train_batch (b : B) : Py unit :=
  let* _ := call (Forward b) in
  let* _ := call (Criterion b) in
  let* _ := call ZeroGrad in
  let* _ := call Backward in
  call OptStep.

(** Lines 66-68. *)
Definition validate_batch (b : B) (validate_loss : float) : Py float :=
  let* _ := call (Forward b) in
  let* _ := call (Criterion b) in
  let* l := loss_item in
  ret (float_add validate_loss l).

(** Lines 54-60. *)
Definition train_phase (train_dataset : D) (batch_size : val) : Py unit :=
  let* _ := call ModelTrain in
  let* batches := iter_train_loader train_dataset batch_size in
  for_each batches train_batch.

(** Lines 62-69: the epoch's mean validation loss. *)
Definition validate_phase (validate_dataset : D) (batch_size : val) : Py float :=
  let* _ := call ModelEval in
  let* _ := call NoGradEnter in
  let* validate_loss :=
    for_fold (fw_batches validate_dataset batch_size) float_zero validate_batch in
  let* _ := call NoGradExit in
  lift (float_truediv_int validate_loss (loader_len validate_dataset batch_size)).

Definition epoch (train_dataset validate_dataset : D) (batch_size : val) : Py float :=
  let* _ := train_phase train_dataset batch_size in
  validate_phase validate_dataset batch_size.

(** Lines 71-72. *)
Definition track_best (validate_loss best_validate_loss : float) : float :=
  if float_lt validate_loss best_validate_loss then validate_loss
  else best_validate_loss.

(** Lines 53-72: [for epoch in range(n)]. *)
Fixpoint epoch_loop (n : nat) (train_dataset validate_dataset : D)
    (batch_size : val) (best_validate_loss : float) : Py float :=
  match n with
  | O => ret best_validate_loss
  | S n' =>
      let* validate_loss := epoch train_dataset validate_dataset batch_size in
      epoch_loop n' train_dataset validate_dataset batch_size
        (track_best validate_loss best_validate_loss)
  end.

(** Lines 39-50; returns [batch_size]. *)
Definition setup (params input_dim : val) (train_dataset validate_dataset : D)
  : Py val :=
  let* _ := call (Print "Testing configuration: " params) in
  let* hidden_layers := getitem params "hidden_layers" in
  let* dropout_rate := getitem params "dropout_rate" in
  let* learning_rate := getitem params "learning_rate" in
  let* batch_size := getitem params "batch_size" in
  let* _ := call (ModelInit input_dim hidden_layers dropout_rate) in
  let* _ := call (AdamInit learning_rate) in
  let* _ := call (LoaderInit train_dataset batch_size true) in
  let* _ := call (LoaderInit validate_dataset batch_size false) in
  ret batch_size.

Definition train_and_evaluate (params input_dim : val)
    (train_dataset validate_dataset : D) (num_epochs : Z) : Py (float * val) :=
  let* batch_size := setup params input_dim train_dataset validate_dataset in
  let* best_validate_loss :=
    epoch_loop (Z.to_nat num_epochs) train_dataset validate_dataset
      batch_size float_inf in
  let* _ := call (Print "Validation Loss: " (VFloat best_validate_loss)) in
  ret (best_validate_loss, params).

(** The mean validation losses of the epochs that [epoch_loop n] completes
    from state [s], in order. *)
Fixpoint epoch_means (n : nat) (train_dataset validate_dataset : D)
    (batch_size : val) (s : St) : list float :=
  match n with
  | O => []
  | S n' =>
      match epoch train_dataset validate_dataset batch_size s with
      | (Ok validate_loss, s') =>
          validate_loss :: epoch_means n' train_dataset validate_dataset batch_size s'
      | (Raise _, _) => []
      end
  end.

(** The same for a whole call of [train_and_evaluate]. *)
Definition validation_means (params input_dim : val)
    (train_dataset validate_dataset : D) (num_epochs : Z) (s : St) : list float :=
  match setup params input_dim train_dataset validate_dataset s with
  | (Ok batch_size, s') =>
      epoch_means (Z.to_nat num_epochs) train_dataset validate_dataset batch_size s'
  | (Raise _, _) => []
  end.

End Trainer.

(** ** Vocabulary of the specification *)

Definition required_keys : list string :=
  ["hidden_layers"; "dropout_rate"; "learning_rate"; "batch_size"].

(** The dict {hidden_layers: a, dropout_rate: b, learning_rate: c,
    batch_size: d}. *)
Definition fields_dict (hidden_layers dropout_rate learning_rate batch_size : val)
  : gmap string val :=
  list_to_map [("hidden_layers", hidden_layers); ("dropout_rate", dropout_rate);
               ("learning_rate", learning_rate); ("batch_size", batch_size)].

(** [ps] is a dict in [h] that lacks one of the required keys. *)
Definition lacks_required_key (h : gmap loc obj) (ps : val) : Prop :=
  exists lp d k,
    ps = VRef lp /\ h !! lp = Some (ODict d) /\ k ∈ required_keys /\ d !! k = None.

(** [params] is a dict in [h] that binds the four fields to the given values. *)
Definition is_config (h : gmap loc obj) (params : val)
    (hidden_layers dropout_rate learning_rate batch_size : val) : Prop :=
  exists lp d,
    params = VRef lp /\ h !! lp = Some (ODict d) /\
    d !! "hidden_layers" = Some hidden_layers /\
    d !! "dropout_rate" = Some dropout_rate /\
    d !! "learning_rate" = Some learning_rate /\
    d !! "batch_size" = Some batch_size.

(** The framework calls of one training mini-batch, lines 56-60 in order. *)
Definition batch_steps {B D} (b : B) : list (op B D) :=
  [Forward b; Criterion b; ZeroGrad; Backward; OptStep].

(** The order the specification states for them: the reset comes last. *)
Definition spec_batch_steps {B D} (b : B) : list (op B D) :=
  [Forward b; Criterion b; Backward; OptStep; ZeroGrad].

(** The tracker after the epochs whose means are [means], in order. *)
Definition track_all (means : list float) (best : float) : float :=
  fold_left (fun b v => track_best v b) means best.

(** Code that never writes to the Python heap. *)
Definition heap_safe {R W B D A} (m : M (R:=R) (W:=W) (B:=B) (D:=D) A) : Prop :=
  forall s, heap (snd (m s)) = heap s.

(** Floats other than NaN are ordered like the triples [float_key], compared
    lexicographically: sign class, then exponent, then mantissa. *)
Definition float_key (x : float) : Z * Z * Z :=
  match x with
  | S754_infinity true => (-2, 0, 0)
  | S754_finite true m e => (-1, - e, Z.neg m)
  | S754_zero _ | S754_nan => (0, 0, 0)
  | S754_finite false m e => (1, e, Z.pos m)
  | S754_infinity false => (2, 0, 0)
  end%Z.

Definition lex3 (a b : Z * Z * Z) : comparison :=
  match (a.1.1 ?= b.1.1)%Z with
  | Eq => match (a.1.2 ?= b.1.2)%Z with
          | Eq => (a.2 ?= b.2)%Z
          | c => c
          end
  | c => c
  end.

Definition lex_lt (a b : Z * Z * Z) : Prop :=
  (a.1.1 < b.1.1 \/ (a.1.1 = b.1.1 /\ (a.1.2 < b.1.2 \/ (a.1.2 = b.1.2 /\ a.2 < b.2))))%Z.


(** The framework calls of one validation batch, lines 66-67 in order. *)
Definition validate_steps {B D} (b : B) : list (op B D) :=
  [Forward b; Criterion b].

(** The calls that switch the model between training and evaluation mode. *)
Definition is_mode_switch {B D} (o : op B D) : bool :=
  match o with
  | ModelTrain | ModelEval => true
  | _ => false
  end.

(** The values [loss.item()] returns over the validation batches, lines
    65-68, from the state [s] at the start of the loop. *)
Fixpoint validation_losses {R W B D} `{!Framework W B D}
    (batches : list B) (s : state R W B D) : list float :=
  match batches with
  | [] => []
  | b :: rest =>
      let s1 := snd (validate_batch b float_zero s) in
      fw_item (world s1) :: validation_losses rest s1
  end.

(** The state in which the validation loop of an epoch starts: after
    [model.eval()] and on entering [torch.no_grad()]. *)
Definition validation_start {R W B D} `{!Framework W B D}
    (s : state R W B D) : state R W B D :=
  snd (call NoGradEnter (snd (call ModelEval s))).

(** The batch losses of each epoch that [epoch_loop n] completes from state
    [s], in order: those its validation loop reads, which starts after the
    epoch's training phase. *)
Fixpoint epoch_losses {R W B D} `{!Framework W B D} (n : nat)
    (train_dataset validate_dataset : D) (batch_size : val)
    (s : state R W B D) : list (list float) :=
  match n with
  | O => []
  | S n' =>
      match epoch train_dataset validate_dataset batch_size s with
      | (Ok _, s') =>
          validation_losses (fw_batches validate_dataset batch_size)
            (validation_start (snd (train_phase train_dataset batch_size s)))
          :: epoch_losses n' train_dataset validate_dataset batch_size s'
      | (Raise _, _) => []
      end
  end.

(** The same for a whole call of [train_and_evaluate]. *)
Definition validation_batch_losses {R W B D} `{!Framework W B D}
    (params input_dim : val) (train_dataset validate_dataset : D)
    (num_epochs : Z) (s : state R W B D) : list (list float) :=
  match setup params input_dim train_dataset validate_dataset s with
  | (Ok batch_size, s') =>
      epoch_losses (Z.to_nat num_epochs) train_dataset validate_dataset batch_size s'
  | (Raise _, _) => []
  end.


(** Only the random source differs between [s] and [s1]. *)
Definition same_but_rand {R W B D} (s s1 : state R W B D) : Prop :=
  heap s1 = heap s /\ world s1 = world s /\ log s1 = log s.

(** ** A small concrete instance, on which the model runs *)

Module Demo.

(** A counter as random source: the [r]-th draw below [n] is [r mod n]. *)
#[global] Instance counter_random : RandomSource nat :=
  {| randbelow := fun r n => (r mod n, S r);
     randbelow_lt := fun r n Hn =>
       Nat.mod_upper_bound r n (proj2 (Nat.neq_0_lt_0 n) Hn) |}.

(** Datasets are lists of sample numbers, one sample per batch; the
    framework state counts optimizer steps, and the loss after [w] steps
    is [8 - w]. *)
#[global] Instance counter_framework : Framework Z nat (list nat) :=
  {| fw_exec := fun _ o w => match o with OptStep => (w + 1)%Z | _ => w end;
     fw_item := fun w => float_of_int (8 - w);
     fw_batches := fun ds _ => ds;
     fw_shuffled := fun ds _ w => (rev ds, w) |}.

Abbreviation demo_state := (state nat Z nat (list nat)).

(** {hidden_layers:[[16]], dropout_rate:[0.0], learning_rate:[0.01], batch_size:[4]} *)
Definition singleton_space : gmap loc obj :=
  list_to_map
    [(1%positive, ODict (list_to_map [("hidden_layers", VRef 2); ("dropout_rate", VRef 3);
                                       ("learning_rate", VRef 4); ("batch_size", VRef 5)]));
     (2%positive, OList [VRef 6]);
     (3%positive, OList [VFloat float_zero]);
     (4%positive, OList [VFloat float_0_01]);
     (5%positive, OList [VInt 4]);
     (6%positive, OList [VInt 16])].

(** {hidden_layers:[[16],[32,16]], dropout_rate:[0.0,0.01], learning_rate:[0.01], batch_size:[4,8,16]} *)
Definition small_space : gmap loc obj :=
  list_to_map
    [(1%positive, ODict (list_to_map [("hidden_layers", VRef 2); ("dropout_rate", VRef 3);
                                       ("learning_rate", VRef 4); ("batch_size", VRef 5)]));
     (2%positive, OList [VRef 6; VRef 7]);
     (3%positive, OList [VFloat float_zero; VFloat float_0_01]);
     (4%positive, OList [VFloat float_0_01]);
     (5%positive, OList [VInt 4; VInt 8; VInt 16]);
     (6%positive, OList [VInt 16]);
     (7%positive, OList [VInt 32; VInt 16])].

(** {hidden_layers: []}: three keys missing, and nothing to choose from. *)
Definition empty_choice_space : gmap loc obj :=
  list_to_map
    [(1%positive, ODict (list_to_map [("hidden_layers", VRef 2)]));
     (2%positive, OList [])].

(** {hidden_layers:[[16]], dropout_rate:[0.0], batch_size:[4]}: no learning_rate. *)
Definition no_learning_rate_space : gmap loc obj :=
  list_to_map
    [(1%positive, ODict (list_to_map [("hidden_layers", VRef 2); ("dropout_rate", VRef 3);
                                       ("batch_size", VRef 5)]));
     (2%positive, OList [VRef 6]);
     (3%positive, OList [VFloat float_zero]);
     (5%positive, OList [VInt 4]);
     (6%positive, OList [VInt 16])].

(** A heap holding the configuration
    {hidden_layers:[16], dropout_rate:0.0, learning_rate:0.01, batch_size:4}. *)
Definition config_heap : gmap loc obj :=
  list_to_map
    [(1%positive, ODict (list_to_map [("hidden_layers", VRef 2); ("dropout_rate", VFloat float_zero);
                                       ("learning_rate", VFloat float_0_01); ("batch_size", VInt 4)]));
     (2%positive, OList [VInt 16])].

Definition start (h : gmap loc obj) (seed : nat) : demo_state := State h seed 0%Z [].

(** Two epochs over two training and three validation batches. *)
Definition run_two_epochs : result (float * val) * demo_state :=
  train_and_evaluate (VRef 1) (VInt 3) [1; 2] [5; 6; 7] 2 (start config_heap 0).

(** A framework whose loss is always NaN. *)
#[global] Instance nan_framework : Framework unit nat (list nat) :=
  {| fw_exec := fun _ _ w => w;
     fw_item := fun _ => S754_nan;
     fw_batches := fun ds _ => ds;
     fw_shuffled := fun ds _ w => (ds, w) |}.

Definition nan_start : state nat unit nat (list nat) := State config_heap 0 tt [].

Definition run_nan_epochs :=
  train_and_evaluate (VRef 1) (VInt 3) [1; 2] [5; 6; 7] 2 nan_start.

(** {hidden_layers:[[16]], dropout_rate:[], learning_rate:[0.01], batch_size:[4]} *)
Definition empty_dropout_space : gmap loc obj :=
  list_to_map
    [(1%positive, ODict (list_to_map [("hidden_layers", VRef 2); ("dropout_rate", VRef 3);
                                       ("learning_rate", VRef 4); ("batch_size", VRef 5)]));
     (2%positive, OList [VRef 6]);
     (3%positive, OList []);
     (4%positive, OList [VFloat float_0_01]);
     (5%positive, OList [VInt 4]);
     (6%positive, OList [VInt 16])].

(** A framework whose loss is the number of the batch it has just seen,
    except on batch 6, where it is NaN. *)
#[global] Instance spiky_framework : Framework nat nat (list nat) :=
  {| fw_exec := fun _ o w => match o with Forward b => b | _ => w end;
     fw_item := fun w => if Nat.eqb w 6 then S754_nan else float_of_int (Z.of_nat w);
     fw_batches := fun ds _ => ds;
     fw_shuffled := fun ds _ w => (ds, w) |}.

Definition spiky_start : state nat nat nat (list nat) := State config_heap 0 0 [].

End Demo.

(** * Properties *)

(** ** The monad and the heap primitives *)

Section InterpFacts.
Context {R W B D : Type}.
Implicit Types (s : state R W B D) (l : loc) (k : string).

Lemma bind_ok {A C} (m : M A) (f : A -> M C) s a s' :
  m s = (Ok a, s') -> bind m f s = f a s'.
Proof. intros E. unfold bind. now rewrite E. Qed.

Lemma bind_raise {A C} (m : M A) (f : A -> M C) s e s' :
  m s = (Raise e, s') -> bind m f s = (Raise e, s').
Proof. intros E. unfold bind. now rewrite E. Qed.

Lemma getitem_state o k s : snd (getitem o k s) = s.
Proof.
  unfold getitem. destruct o as [ | | |l]; try reflexivity.
  destruct (heap s !! l) as [[xs|d]|]; try reflexivity.
  now destruct (d !! k).
Qed.

Lemma getitem_dict l d k v s :
  heap s !! l = Some (ODict d) -> d !! k = Some v ->
  getitem (VRef l) k s = (Ok v, s).
Proof. intros Hl Hk. unfold getitem. now rewrite Hl, Hk. Qed.

Lemma getitem_missing l d k s :
  heap s !! l = Some (ODict d) -> d !! k = None ->
  getitem (VRef l) k s = (Raise (KeyError (VStr k)), s).
Proof. intros Hl Hk. unfold getitem. now rewrite Hl, Hk. Qed.

(** A successful subscript on a dict found the key. *)
Lemma getitem_ok_inv l d k v s s' :
  heap s !! l = Some (ODict d) ->
  getitem (VRef l) k s = (Ok v, s') -> d !! k = Some v /\ s' = s.
Proof.
  intros Hl. unfold getitem. rewrite Hl.
  destruct (d !! k); intros E; inversion E; auto.
Qed.

Lemma fresh_loc_unused s : heap s !! fresh (dom (heap s)) = None.
Proof. apply not_elem_of_dom, is_fresh. Qed.

Lemma new_dict_extends kvs s : heap s ⊆ heap (snd (new_dict kvs s)).
Proof. simpl. apply insert_subseteq, fresh_loc_unused. Qed.

End InterpFacts.

(** ** sample_hyperparameters *)

Section SamplerFacts.
Context {R W B D : Type} `{!RandomSource R}.
Implicit Types (s : state R W B D) (l : loc) (k : string).

(** [random.choice] touches the random source only. *)
Lemma random_choice_state seq s :
  exists r', snd (random_choice seq s) = set_rand r' s.
Proof.
  assert (Hid : s = set_rand (rand s) s) by now destruct s.
  unfold random_choice. destruct seq as [ | |str|l].
  - exists (rand s); exact Hid.
  - exists (rand s); exact Hid.
  - destruct (Nat.eqb (String.length str) 0); [exists (rand s); exact Hid|].
    destruct (randbelow (rand s) (String.length str)) as [i r']. now exists r'.
  - destruct (heap s !! l) as [o|]; [|exists (rand s); exact Hid].
    destruct (Nat.eqb (obj_len o) 0); [exists (rand s); exact Hid|].
    destruct (randbelow (rand s) (obj_len o)) as [i r']. now exists r'.
Qed.

Lemma random_choice_heap seq s : heap (snd (random_choice seq s)) = heap s.
Proof. destruct (random_choice_state seq s) as [r' ->]. reflexivity. Qed.

(** On a non-empty list, [random.choice] returns one of its elements. *)
Lemma random_choice_list l xs s :
  heap s !! l = Some (OList xs) -> xs <> [] ->
  exists i v r',
    random_choice (VRef l) s = (Ok v, set_rand r' s) /\ xs !! i = Some v.
Proof.
  intros Hl Hne. unfold random_choice. rewrite Hl. simpl.
  destruct xs as [|x xs']; [congruence|]. simpl Nat.eqb. cbv iota.
  pose proof (randbelow_lt (rand s) (length (x :: xs')) ltac:(simpl; lia)) as Hlt.
  destruct (randbelow (rand s) (length (x :: xs'))) as [i r']. simpl in Hlt.
  destruct (lookup_lt_is_Some_2 (x :: xs') i Hlt) as [v Hv].
  exists i, v, r'. unfold choice_index. now rewrite Hv.
Qed.

Lemma random_choice_empty l s :
  heap s !! l = Some (OList []) ->
  random_choice (VRef l) s = (Raise IndexError, s).
Proof. intros Hl. unfold random_choice. now rewrite Hl. Qed.

(** Reading a key and choosing from its list: lines 16-19, one at a time. *)
Lemma draw_field l d k lc xs s {C} (f : val -> M C) :
  heap s !! l = Some (ODict d) -> d !! k = Some (VRef lc) ->
  heap s !! lc = Some (OList xs) -> xs <> [] ->
  exists v r',
    v ∈ xs /\
    bind (getitem (VRef l) k) (fun c => bind (random_choice c) f) s
    = f v (set_rand r' s).
Proof.
  intros Hl Hk Hlc Hne.
  destruct (random_choice_list lc xs s Hlc Hne) as (i & v & r' & Hrc & Hi).
  exists v, r'. split; [eapply list_elem_of_lookup_2; eauto|].
  rewrite (bind_ok _ _ _ _ _ (getitem_dict l d k _ s Hl Hk)).
  now rewrite (bind_ok _ _ _ _ _ Hrc).
Qed.

(** Every step of the sampler keeps the existing objects. *)
Lemma sample_hyperparameters_extends ps s :
  heap s ⊆ heap (snd (sample_hyperparameters ps s)).
Proof.
  assert (Hstep : forall k (f : val -> M val),
    (forall v s1, heap s1 ⊆ heap (snd (f v s1))) ->
    forall s1, heap s1 ⊆
      heap (snd (bind (getitem ps k) (fun c => bind (random_choice c) f) s1))).
  { intros k f Hf s1. unfold bind.
    pose proof (getitem_state ps k s1) as Hg.
    destruct (getitem ps k s1) as [[c|e] s2]; simpl in Hg; subst s2; [|done].
    pose proof (random_choice_heap c s1) as Hc.
    destruct (random_choice c s1) as [[v|e] s3]; simpl in Hc.
    - rewrite <- Hc. apply Hf.
    - simpl. now rewrite Hc. }
  unfold sample_hyperparameters.
  apply Hstep; intros v1 s1. apply Hstep; intros v2 s2.
  apply Hstep; intros v3 s3. apply Hstep; intros v4 s4.
  apply new_dict_extends.
Qed.

End SamplerFacts.

Section SamplerClaims.
Context {R W B D : Type} `{!RandomSource R}.
Implicit Types (s : state R W B D) (l : loc) (k : string).

(** The run of the sampler on a space whose four keys are bound to non-empty
    lists: four draws, then the allocation of the result. *)
Lemma sample_hyperparameters_draws s lp d l1 l2 l3 l4 c1 c2 c3 c4 :
  heap s !! lp = Some (ODict d) ->
  d !! "hidden_layers" = Some (VRef l1) -> heap s !! l1 = Some (OList c1) -> c1 <> [] ->
  d !! "dropout_rate" = Some (VRef l2) -> heap s !! l2 = Some (OList c2) -> c2 <> [] ->
  d !! "learning_rate" = Some (VRef l3) -> heap s !! l3 = Some (OList c3) -> c3 <> [] ->
  d !! "batch_size" = Some (VRef l4) -> heap s !! l4 = Some (OList c4) -> c4 <> [] ->
  exists v1 v2 v3 v4 r',
    v1 ∈ c1 /\ v2 ∈ c2 /\ v3 ∈ c3 /\ v4 ∈ c4 /\
    sample_hyperparameters (VRef lp) s
    = (Ok (VRef (fresh (dom (heap s)))),
       State (<[fresh (dom (heap s)) := ODict (fields_dict v1 v2 v3 v4)]> (heap s))
             r' (world s) (log s)).
Proof.
  intros Hp K1 H1 N1 K2 H2 N2 K3 H3 N3 K4 H4 N4.
  unfold sample_hyperparameters.
  destruct (draw_field lp d _ l1 c1 s
    (fun hidden_layers =>
       let* c2 := getitem (VRef lp) "dropout_rate" in
       let* dropout_rate := random_choice c2 in
       let* c3 := getitem (VRef lp) "learning_rate" in
       let* learning_rate := random_choice c3 in
       let* c4 := getitem (VRef lp) "batch_size" in
       let* batch_size := random_choice c4 in
       new_dict [("hidden_layers", hidden_layers); ("dropout_rate", dropout_rate);
                 ("learning_rate", learning_rate); ("batch_size", batch_size)])
    Hp K1 H1 N1) as (v1 & r1 & I1 & ->).
  destruct (draw_field lp d _ l2 c2 (set_rand r1 s)
    (fun dropout_rate =>
       let* c3 := getitem (VRef lp) "learning_rate" in
       let* learning_rate := random_choice c3 in
       let* c4 := getitem (VRef lp) "batch_size" in
       let* batch_size := random_choice c4 in
       new_dict [("hidden_layers", v1); ("dropout_rate", dropout_rate);
                 ("learning_rate", learning_rate); ("batch_size", batch_size)])
    Hp K2 H2 N2) as (v2 & r2 & I2 & ->).
  destruct (draw_field lp d _ l3 c3 (set_rand r2 (set_rand r1 s))
    (fun learning_rate =>
       let* c4 := getitem (VRef lp) "batch_size" in
       let* batch_size := random_choice c4 in
       new_dict [("hidden_layers", v1); ("dropout_rate", v2);
                 ("learning_rate", learning_rate); ("batch_size", batch_size)])
    Hp K3 H3 N3) as (v3 & r3 & I3 & ->).
  destruct (draw_field lp d _ l4 c4 (set_rand r3 (set_rand r2 (set_rand r1 s)))
    (fun batch_size =>
       new_dict [("hidden_layers", v1); ("dropout_rate", v2);
                 ("learning_rate", v3); ("batch_size", batch_size)])
    Hp K4 H4 N4) as (v4 & r4 & I4 & ->).
  exists v1, v2, v3, v4, r4. repeat (split; [assumption|]).
  reflexivity.
Qed.

(** C2. On a parameter space that binds each of hidden_layers, dropout_rate,
    learning_rate and batch_size to a non-empty candidate list,
    [sample_hyperparameters] returns a new configuration whose four fields
    are members of the corresponding candidate lists, whatever the state of
    the random source. *)
Theorem sample_hyperparameters_membership s lp d l1 l2 l3 l4 c1 c2 c3 c4 :
  heap s !! lp = Some (ODict d) ->
  d !! "hidden_layers" = Some (VRef l1) -> heap s !! l1 = Some (OList c1) -> c1 <> [] ->
  d !! "dropout_rate" = Some (VRef l2) -> heap s !! l2 = Some (OList c2) -> c2 <> [] ->
  d !! "learning_rate" = Some (VRef l3) -> heap s !! l3 = Some (OList c3) -> c3 <> [] ->
  d !! "batch_size" = Some (VRef l4) -> heap s !! l4 = Some (OList c4) -> c4 <> [] ->
  exists cfg s' v1 v2 v3 v4,
    sample_hyperparameters (VRef lp) s = (Ok cfg, s') /\
    is_config (heap s') cfg v1 v2 v3 v4 /\
    v1 ∈ c1 /\ v2 ∈ c2 /\ v3 ∈ c3 /\ v4 ∈ c4.
Proof.
  intros Hp K1 H1 N1 K2 H2 N2 K3 H3 N3 K4 H4 N4.
  destruct (sample_hyperparameters_draws s lp d l1 l2 l3 l4 c1 c2 c3 c4)
    as (v1 & v2 & v3 & v4 & r' & I1 & I2 & I3 & I4 & E); try assumption.
  eexists _, _, v1, v2, v3, v4. split; [exact E|].
  split; [|auto].
  exists (fresh (dom (heap s))), (fields_dict v1 v2 v3 v4).
  split; [reflexivity|]. split; [apply lookup_insert_eq|].
  unfold fields_dict. simpl. now simplify_map_eq.
Qed.

(** C8. On the parameter space {hidden_layers:[[16]], dropout_rate:[0.0],
    learning_rate:[0.01], batch_size:[4]} every call returns the
    configuration {hidden_layers:[16], dropout_rate:0.0, learning_rate:0.01,
    batch_size:4}, for every state of the random source; the hidden_layers
    field is the list object [16] of the space itself. *)
Theorem sample_hyperparameters_singletons s lp l1 l2 l3 l4 a :
  heap s !! lp = Some (ODict (fields_dict (VRef l1) (VRef l2) (VRef l3) (VRef l4))) ->
  heap s !! l1 = Some (OList [VRef a]) ->
  heap s !! a = Some (OList [VInt 16]) ->
  heap s !! l2 = Some (OList [VFloat float_zero]) ->
  heap s !! l3 = Some (OList [VFloat float_0_01]) ->
  heap s !! l4 = Some (OList [VInt 4]) ->
  exists lc s',
    sample_hyperparameters (VRef lp) s = (Ok (VRef lc), s') /\
    heap s' !! lc
    = Some (ODict (fields_dict (VRef a) (VFloat float_zero) (VFloat float_0_01) (VInt 4))) /\
    heap s' !! a = Some (OList [VInt 16]).
Proof.
  intros Hp H1 Ha H2 H3 H4.
  destruct (sample_hyperparameters_draws s lp _ l1 l2 l3 l4
              [VRef a] [VFloat float_zero] [VFloat float_0_01] [VInt 4] Hp)
    as (v1 & v2 & v3 & v4 & r' & I1 & I2 & I3 & I4 & E);
    try assumption; try discriminate;
    try (unfold fields_dict; simpl; now simplify_map_eq).
  apply list_elem_of_singleton in I1, I2, I3, I4. subst v1 v2 v3 v4.
  eexists _, _. split; [exact E|]. simpl. split; [apply lookup_insert_eq|].
  rewrite lookup_insert_ne; [exact Ha|].
  intros Heq. pose proof (fresh_loc_unused s) as Hf. rewrite Heq in Hf. congruence.
Qed.

(** C7. [sample_hyperparameters] changes no object that existed before the
    call: the parameter space dict, its candidate lists and their elements
    are the same objects with the same contents afterwards, whether the call
    returns or raises. *)
Theorem sample_hyperparameters_frame ps s l o :
  heap s !! l = Some o ->
  heap (snd (sample_hyperparameters ps s)) !! l = Some o.
Proof.
  intros Hl. pose proof (sample_hyperparameters_extends ps s) as Hsub.
  eapply lookup_weaken; eauto.
Qed.

End SamplerClaims.

Section SamplerErrors.
Context {R W B D : Type} `{!RandomSource R}.
Implicit Types (s : state R W B D) (l : loc) (k : string).

(** If reading a key, choosing, and the rest of the function return, the
    key was there. *)
Lemma draw_field_ok_inv l d k s {C} (f : val -> M C) (res : C) s' :
  heap s !! l = Some (ODict d) ->
  bind (getitem (VRef l) k) (fun c => bind (random_choice c) f) s = (Ok res, s') ->
  exists c v r', d !! k = Some c /\ f v (set_rand r' s) = (Ok res, s').
Proof.
  intros Hl. unfold bind.
  destruct (getitem (VRef l) k s) as [[c|e] s1] eqn:Eg; [|discriminate].
  apply (getitem_ok_inv _ _ _ _ _ _ Hl) in Eg as [Hk ->].
  destruct (random_choice_state c s) as [r' Hr'].
  destruct (random_choice c s) as [[v|e] s2]; [|discriminate].
  simpl in Hr'. subst s2. intros E. now exists c, v, r'.
Qed.

Lemma sample_hyperparameters_ok_keys s lp d cfg s' :
  heap s !! lp = Some (ODict d) ->
  sample_hyperparameters (VRef lp) s = (Ok cfg, s') ->
  forall k, k ∈ required_keys -> d !! k <> None.
Proof.
  intros Hp E. unfold sample_hyperparameters in E.
  apply (draw_field_ok_inv _ _ _ _ _ _ _ Hp) in E as (c1 & v1 & r1 & K1 & E).
  apply (draw_field_ok_inv lp d _ (set_rand r1 s) _ _ _ Hp) in E
    as (c2 & v2 & r2 & K2 & E).
  apply (draw_field_ok_inv lp d _ (set_rand r2 (set_rand r1 s)) _ _ _ Hp) in E
    as (c3 & v3 & r3 & K3 & E).
  assert (K4 : d !! "batch_size" <> None).
  { unfold bind in E.
    destruct (getitem (VRef lp) "batch_size" _) as [[c4|e] s4] eqn:Eg; [|discriminate].
    apply (getitem_ok_inv lp d) in Eg as [K4 _]; [congruence|exact Hp]. }
  intros k Hk. unfold required_keys in Hk.
  repeat (apply elem_of_cons in Hk as [->|Hk]; [congruence|]).
  now apply not_elem_of_nil in Hk.
Qed.

(** C5, amended. On a parameter space that lacks one of the four required
    keys, [sample_hyperparameters] raises and returns no configuration; the
    exception is the KeyError of the first missing key (in the order
    hidden_layers, dropout_rate, learning_rate, batch_size) whenever every
    required key before it is bound to a non-empty list. *)
Theorem sample_hyperparameters_missing_key s ps :
  lacks_required_key (heap s) ps ->
  (exists e, fst (sample_hyperparameters ps s) = Raise e) /\
  (forall lp d pre k post,
     ps = VRef lp -> heap s !! lp = Some (ODict d) ->
     required_keys = pre ++ k :: post -> d !! k = None ->
     Forall (fun k' => exists lc xs,
               d !! k' = Some (VRef lc) /\ heap s !! lc = Some (OList xs) /\ xs <> [])
            pre ->
     fst (sample_hyperparameters ps s) = Raise (KeyError (VStr k))).
Proof.
  intros (lp & d & k0 & -> & Hp & Hreq & Hnone). split.
  - destruct (sample_hyperparameters (VRef lp) s) as [[cfg|e] s'] eqn:E.
    + exfalso. exact (sample_hyperparameters_ok_keys _ _ _ _ _ Hp E k0 Hreq Hnone).
    + now exists e.
  - intros lp' d' pre k post [= <-] Hp' Hsplit Hk Hpre.
    assert (d' = d) by congruence. subst d'. clear Hp'.
    unfold required_keys in Hsplit. unfold sample_hyperparameters.
    destruct pre as [|p1 [|p2 [|p3 [|p4 pre]]]]; simpl in Hsplit;
      injection Hsplit as <-;
      repeat match goal with
        | H : _ :: _ = _ :: _ |- _ => injection H as <-
        | H : [] = _ ++ _ :: _ |- _ => now apply app_cons_not_nil in H
        | H : [] = _ :: _ |- _ => discriminate H
        | H : _ :: _ = [] |- _ => discriminate H
        end;
      subst;
      repeat match goal with
        | H : Forall _ (_ :: _) |- _ =>
            apply Forall_cons in H as [(? & ? & ? & ? & ?) H]
        end;
      repeat match goal with
        | Hk' : d !! ?key = Some (VRef ?lc), Hl : heap s !! ?lc = Some (OList ?xs),
          Hne : ?xs <> [] |- context [bind (getitem (VRef lp) ?key) _ ?st] =>
            let v := fresh "v" in let r := fresh "r" in let E := fresh "E" in
            edestruct (draw_field (C:=val) lp d key lc xs st) as (v & r & _ & E);
              [exact Hp | exact Hk' | exact Hl | exact Hne | ];
            rewrite E; cbv beta; clear E Hk'
        end;
      (erewrite bind_raise; [reflexivity|]; now apply getitem_missing with (d := d)).
Qed.

End SamplerErrors.

(** ** The order of Python floats *)

Lemma lex3_Lt a b : lex3 a b = Lt <-> lex_lt a b.
Proof.
  destruct a as [[a1 a2] a3], b as [[b1 b2] b3]. unfold lex3, lex_lt. simpl.
  destruct (Z.compare_spec a1 b1); [destruct (Z.compare_spec a2 b2);
    [destruct (Z.compare_spec a3 b3)|..]|..];
    split; intros HH; try discriminate; try reflexivity; lia.
Qed.

Lemma lex3_Gt a b : lex3 a b = Gt <-> lex_lt b a.
Proof.
  destruct a as [[a1 a2] a3], b as [[b1 b2] b3]. unfold lex3, lex_lt. simpl.
  destruct (Z.compare_spec a1 b1); [destruct (Z.compare_spec a2 b2);
    [destruct (Z.compare_spec a3 b3)|..]|..];
    split; intros HH; try discriminate; try reflexivity; lia.
Qed.

Lemma SFcompare_key x y :
  is_nan x = false -> is_nan y = false ->
  SFcompare x y = Some (lex3 (float_key x) (float_key y)).
Proof.
  destruct x as [sx|sx| |sx mx ex], y as [sy|sy| |sy my ey];
    try discriminate; intros _ _;
    try destruct sx; try destruct sy; try reflexivity.
  unfold lex3. simpl. rewrite Z.compare_opp, (Z.compare_antisym ex ey).
  destruct (ex ?= ey)%Z; reflexivity.
Qed.

Lemma float_lt_not_nan x y :
  float_lt x y = true -> is_nan x = false /\ is_nan y = false.
Proof.
  unfold float_lt, SFltb.
  destruct x, y; simpl; try discriminate; auto.
Qed.

Lemma float_lt_spec x y :
  is_nan x = false -> is_nan y = false ->
  float_lt x y = true <-> lex_lt (float_key x) (float_key y).
Proof.
  intros Hx Hy. unfold float_lt, SFltb. rewrite (SFcompare_key x y Hx Hy).
  rewrite <- lex3_Lt. destruct (lex3 _ _); split; congruence.
Qed.

Lemma float_le_spec x y :
  is_nan x = false -> is_nan y = false ->
  float_le x y = true <-> ~ lex_lt (float_key y) (float_key x).
Proof.
  intros Hx Hy. unfold float_le, SFleb. rewrite (SFcompare_key x y Hx Hy).
  rewrite <- lex3_Gt. destruct (lex3 _ _); split; congruence.
Qed.

Lemma float_le_refl x : is_nan x = false -> float_le x x = true.
Proof.
  intros Hx. apply float_le_spec; auto.
  destruct (float_key x) as [[a b] c]. unfold lex_lt. simpl. lia.
Qed.


Lemma float_lt_le x y : float_lt x y = true -> float_le x y = true.
Proof.
  intros H. destruct (float_lt_not_nan _ _ H) as [Hx Hy].
  apply float_lt_spec in H; auto. apply float_le_spec; auto.
  destruct (float_key x) as [[a1 a2] a3], (float_key y) as [[b1 b2] b3].
  unfold lex_lt in *. simpl in *. lia.
Qed.



(** ** The best-loss tracker *)

Lemma track_best_not_nan v b : is_nan b = false -> is_nan (track_best v b) = false.
Proof.
  intros Hb. unfold track_best. destruct (float_lt v b) eqn:E; [|exact Hb].
  now apply float_lt_not_nan in E.
Qed.







(** ** train_and_evaluate *)

Section TrainerFacts.
Context {R W B D : Type} `{!Framework W B D}.
Implicit Types (s : state R W B D) (b : B) (ds : D).

Local Abbreviation Py := (M (R:=R) (W:=W) (B:=B) (D:=D)).

Lemma heap_safe_bind {A C} (m : Py A) (f : A -> Py C) :
  heap_safe m -> (forall a, heap_safe (f a)) -> heap_safe (bind m f).
Proof.
  intros Hm Hf s. unfold bind. specialize (Hm s).
  destruct (m s) as [[a|e] s1]; simpl in Hm.
  - now rewrite Hf.
  - exact Hm.
Qed.

Lemma heap_safe_ret {A} (a : A) : heap_safe (ret a : Py A).
Proof. now intros s. Qed.

Lemma heap_safe_lift {A} (r : result A) : heap_safe (lift r : Py A).
Proof. now intros s. Qed.

Lemma heap_safe_call o : heap_safe (R:=R) (call o).
Proof. now intros s. Qed.

Lemma heap_safe_getitem o k : heap_safe (getitem o k : Py val).
Proof. intros s. now rewrite getitem_state. Qed.

Lemma heap_safe_loss_item : heap_safe (R:=R) loss_item.
Proof. now intros s. Qed.

Lemma heap_safe_iter ds bs : heap_safe (R:=R) (iter_train_loader ds bs).
Proof. intros s. unfold iter_train_loader. now destruct (fw_shuffled ds bs (world s)). Qed.

Lemma heap_safe_for_each {A} (xs : list A) (body : A -> Py unit) :
  (forall x, heap_safe (body x)) -> heap_safe (for_each xs body).
Proof.
  intros Hb. induction xs as [|x xs IH]; simpl.
  - apply heap_safe_ret.
  - apply heap_safe_bind; auto.
Qed.

Lemma heap_safe_for_fold {A S} (xs : list A) (body : A -> S -> Py S) :
  (forall x acc, heap_safe (body x acc)) -> forall acc, heap_safe (for_fold xs acc body).
Proof.
  intros Hb. induction xs as [|x xs IH]; intros acc; simpl.
  - apply heap_safe_ret.
  - apply heap_safe_bind; auto.
Qed.

Create HintDb heap_safe.
#[local] Hint Resolve heap_safe_ret heap_safe_lift heap_safe_call heap_safe_getitem
  heap_safe_loss_item heap_safe_iter : heap_safe.

Ltac heap_safe_tac :=
  repeat first
    [ apply heap_safe_bind; [|intros ?]
    | apply heap_safe_for_each; intros ?
    | apply heap_safe_for_fold; intros ? ?
    | solve [auto with heap_safe] ].

Lemma heap_safe_epoch train_ds val_ds bs : heap_safe (R:=R) (epoch train_ds val_ds bs).
Proof.
  unfold epoch, train_phase, validate_phase, train_batch, validate_batch.
  heap_safe_tac.
Qed.

Lemma heap_safe_epoch_loop n train_ds val_ds bs best :
  heap_safe (R:=R) (epoch_loop n train_ds val_ds bs best).
Proof.
  revert best. induction n as [|n IH]; intros best; simpl.
  - apply heap_safe_ret.
  - apply heap_safe_bind; [apply heap_safe_epoch|auto].
Qed.

Lemma heap_safe_train_and_evaluate params input_dim train_ds val_ds num_epochs :
  heap_safe (R:=R) (train_and_evaluate params input_dim train_ds val_ds num_epochs).
Proof.
  unfold train_and_evaluate, setup.
  repeat first
    [ apply heap_safe_epoch_loop
    | apply heap_safe_bind; [|intros ?]
    | solve [auto with heap_safe] ].
Qed.

(** The log of one mini-batch of training. *)
Lemma train_batch_run b s :
  exists s', train_batch b s = (Ok tt, s') /\
    log s' = log s ++ [Forward b; Criterion b; ZeroGrad; Backward; OptStep].
Proof.
  eexists. split; [reflexivity|]. simpl. now rewrite <- !app_assoc.
Qed.

Lemma for_each_train_batch_run (bs : list B) s :
  exists s', for_each bs train_batch s = (Ok tt, s') /\
    log s' = log s ++
      flat_map (fun b => [Forward b; Criterion b; ZeroGrad; Backward; OptStep]) bs.
Proof.
  revert s. induction bs as [|b bs IH]; intros s.
  - exists s. split; [reflexivity|]. simpl. now rewrite app_nil_r.
  - destruct (train_batch_run b s) as (s1 & E1 & L1).
    destruct (IH s1) as (s2 & E2 & L2).
    exists s2. split.
    + simpl for_each. now rewrite (bind_ok _ _ _ _ _ E1).
    + rewrite L2, L1. simpl. now rewrite <- !app_assoc.
Qed.

(** A training phase always runs to its end. *)
Lemma train_phase_run train_ds bs s :
  exists s', train_phase train_ds bs s = (Ok tt, s').
Proof.
  unfold train_phase, bind, call, iter_train_loader. simpl.
  destruct (fw_shuffled train_ds bs (fw_exec (heap s) ModelTrain (world s)))
    as [batches w'].
  destruct (for_each_train_batch_run batches
              (State (heap s) (rand s) w' (log s ++ [ModelTrain]))) as (s' & E' & _).
  now exists s'.
Qed.

(** The set-up, lines 39-50, on a configuration. *)
Lemma setup_run params input_dim train_ds val_ds s hl dr lr bs :
  is_config (heap s) params hl dr lr bs ->
  exists s', setup params input_dim train_ds val_ds s = (Ok bs, s') /\
    log s' = log s ++
      [Print "Testing configuration: " params; ModelInit input_dim hl dr;
       AdamInit lr; LoaderInit train_ds bs true; LoaderInit val_ds bs false].
Proof.
  intros (lp & d & -> & Hp & K1 & K2 & K3 & K4).
  unfold setup, bind, call, getitem, ret. simpl.
  repeat (first [rewrite Hp | rewrite K1 | rewrite K2 | rewrite K3 | rewrite K4];
          simpl).
  eexists. split; [reflexivity|]. simpl. now rewrite <- !app_assoc.
Qed.

(** The epoch loop returns the tracker run over the means of its epochs. *)
Lemma epoch_loop_tracks n train_ds val_ds bs best s r s' :
  epoch_loop n train_ds val_ds bs best s = (Ok r, s') ->
  length (epoch_means n train_ds val_ds bs s) = n /\
  r = track_all (epoch_means n train_ds val_ds bs s) best.
Proof.
  revert best s. induction n as [|n IH]; intros best s E.
  - simpl in E. unfold ret in E. injection E as <- <-. now split.
  - simpl in E |- *. unfold bind in E.
    destruct (epoch train_ds val_ds bs s) as [[v|e] s1]; [|discriminate].
    destruct (IH _ _ E) as [Hlen ->]. simpl. now rewrite Hlen.
Qed.

Lemma train_and_evaluate_tracks params input_dim train_ds val_ds num_epochs s best p s' :
  train_and_evaluate params input_dim train_ds val_ds num_epochs s = (Ok (best, p), s') ->
  p = params /\
  length (validation_means params input_dim train_ds val_ds num_epochs s)
  = Z.to_nat num_epochs /\
  best = track_all (validation_means params input_dim train_ds val_ds num_epochs s)
           float_inf.
Proof.
  unfold train_and_evaluate, validation_means, bind at 1.
  destruct (setup params input_dim train_ds val_ds s) as [[bs|e] s1]; [|discriminate].
  unfold bind at 1.
  destruct (epoch_loop _ train_ds val_ds bs float_inf s1) as [[r|e] s2] eqn:E;
    [|discriminate].
  apply epoch_loop_tracks in E as [Hlen ->].
  unfold bind, call, ret. simpl. intros [= <- <- _]. auto.
Qed.



End TrainerFacts.

Section TrainerClaims.
Context {R W B D : Type} `{!Framework W B D}.
Implicit Types (s : state R W B D) (b : B) (ds : D).

(** C3. A call with [num_epochs >= 1] on a configuration whose validation
    loader yields no batch raises ZeroDivisionError: the first epoch trains,
    sums no loss, and divides by zero; nothing catches the exception. *)
Theorem train_and_evaluate_empty_validation
    params input_dim train_ds val_ds num_epochs s hl dr lr bs :
  (1 <= num_epochs)%Z ->
  is_config (heap s) params hl dr lr bs ->
  fw_batches val_ds bs = [] ->
  fst (train_and_evaluate params input_dim train_ds val_ds num_epochs s)
  = Raise ZeroDivisionError.
Proof.
  intros Hn Hcfg Hempty.
  destruct (setup_run params input_dim train_ds val_ds s hl dr lr bs Hcfg)
    as (s1 & E1 & _).
  unfold train_and_evaluate. rewrite (bind_ok _ _ _ _ _ E1).
  destruct (Z.to_nat num_epochs) as [|n] eqn:En; [lia|].
  simpl epoch_loop. unfold epoch at 1.
  destruct (train_phase_run train_ds bs s1) as (s2 & E2).
  unfold bind at 1. unfold bind at 1. unfold bind at 1. rewrite E2.
  unfold validate_phase, loader_len. rewrite Hempty. reflexivity.
Qed.

(** C4, amended. In a training phase each mini-batch makes its calls in the
    order: predictions, loss, reset of the accumulated gradients, backward
    pass, one optimizer step; the batches follow one another in the order
    the shuffling loader yields them. *)
Theorem train_phase_order train_ds bs s :
  exists s', train_phase train_ds bs s = (Ok tt, s') /\
    log s' = log s ++ ModelTrain ::
      flat_map batch_steps
        (fst (fw_shuffled train_ds bs (fw_exec (heap s) ModelTrain (world s)))).
Proof.
  unfold train_phase, bind, call, iter_train_loader. simpl.
  destruct (fw_shuffled train_ds bs (fw_exec (heap s) ModelTrain (world s)))
    as [batches w'] eqn:E. simpl.
  destruct (for_each_train_batch_run batches
              (State (heap s) (rand s) w' (log s ++ [ModelTrain]))) as (s' & E' & L').
  exists s'. split; [exact E'|].
  rewrite L'. simpl. rewrite <- app_assoc. reflexivity.
Qed.

(** C6. A call that returns gives back the reference it was passed; the heap
    is the same as before the call, and so the configuration still binds
    its four fields to the same values. *)
Theorem train_and_evaluate_config_unchanged
    params input_dim train_ds val_ds num_epochs s best p s' :
  train_and_evaluate params input_dim train_ds val_ds num_epochs s = (Ok (best, p), s') ->
  p = params /\ heap s' = heap s /\
  forall hl dr lr bs,
    is_config (heap s) params hl dr lr bs -> is_config (heap s') p hl dr lr bs.
Proof.
  intros E.
  destruct (train_and_evaluate_tracks _ _ _ _ _ _ _ _ _ E) as (-> & _).
  pose proof (heap_safe_train_and_evaluate params input_dim train_ds val_ds num_epochs s)
    as Hheap.
  rewrite E in Hheap. simpl in Hheap.
  repeat split; [exact Hheap|]. intros hl dr lr bs. now rewrite Hheap.
Qed.

(** C9. With [num_epochs <= 0] and a configuration, the epoch loop runs zero
    times: the only calls are the set-up and the two prints, and the call
    returns positive infinity and the reference it was passed, the heap
    unchanged. *)
Theorem train_and_evaluate_no_epochs
    params input_dim train_ds val_ds num_epochs s hl dr lr bs :
  (num_epochs <= 0)%Z ->
  is_config (heap s) params hl dr lr bs ->
  exists s',
    train_and_evaluate params input_dim train_ds val_ds num_epochs s
    = (Ok (float_inf, params), s') /\
    heap s' = heap s /\
    validation_means params input_dim train_ds val_ds num_epochs s = [] /\
    log s' = log s ++
      [Print "Testing configuration: " params; ModelInit input_dim hl dr;
       AdamInit lr; LoaderInit train_ds bs true; LoaderInit val_ds bs false;
       Print "Validation Loss: " (VFloat float_inf)].
Proof.
  intros Hn Hcfg.
  destruct (setup_run params input_dim train_ds val_ds s hl dr lr bs Hcfg)
    as (s1 & E1 & L1).
  pose proof (heap_safe_train_and_evaluate params input_dim train_ds val_ds num_epochs s)
    as Hheap.
  unfold validation_means. unfold train_and_evaluate in *.
  rewrite (bind_ok _ _ _ _ _ E1) in *. rewrite E1.
  replace (Z.to_nat num_epochs) with 0 in * by lia.
  eexists. split; [reflexivity|]. split; [exact Hheap|]. split; [reflexivity|].
  simpl. rewrite L1. now rewrite <- app_assoc.
Qed.


End TrainerClaims.

(** * The claims on concrete runs *)

Lemma config_heap_is_config :
  is_config Demo.config_heap (VRef 1)
    (VRef 2) (VFloat float_zero) (VFloat float_0_01) (VInt 4).
Proof.
  exists 1%positive, (fields_dict (VRef 2) (VFloat float_zero) (VFloat float_0_01) (VInt 4)).
  repeat split; vm_compute; reflexivity.
Qed.

Lemma no_learning_rate_lacks_key :
  lacks_required_key Demo.no_learning_rate_space (VRef 1).
Proof.
  exists 1%positive,
    (list_to_map [("hidden_layers", VRef 2); ("dropout_rate", VRef 3); ("batch_size", VRef 5)]),
    "learning_rate".
  repeat split; try (vm_compute; reflexivity).
  unfold required_keys. set_solver.
Qed.

(** The run of two epochs: the means are 6.0 and 4.0, the result is 4.0. *)
Example run_two_epochs_result :
  validation_means (VRef 1) (VInt 3) [1; 2] [5; 6; 7] 2 (Demo.start Demo.config_heap 0)
  = [float_of_int 6; float_of_int 4] /\
  fst Demo.run_two_epochs = Ok (float_of_int 4, VRef 1).
Proof. split; vm_compute; reflexivity. Qed.

(** A draw from the small space with the counter at 3. *)
Example sample_small_space :
  exists s',
    sample_hyperparameters (VRef 1) (Demo.start Demo.small_space 3) = (Ok (VRef 8), s') /\
    heap s' !! 8%positive
    = Some (ODict (fields_dict (VRef 7) (VFloat float_zero) (VFloat float_0_01) (VInt 4))) /\
    rand s' = 7.
Proof. eexists. split; [reflexivity|]. split; vm_compute; reflexivity. Qed.

Lemma sample_hyperparameters_membership_witness :
  exists cfg s' v1 v2 v3 v4,
    sample_hyperparameters (VRef 1) (Demo.start Demo.small_space 3) = (Ok cfg, s') /\
    is_config (heap s') cfg v1 v2 v3 v4 /\
    v1 ∈ [VRef 6; VRef 7] /\
    v2 ∈ [VFloat float_zero; VFloat float_0_01] /\
    v3 ∈ [VFloat float_0_01] /\
    v4 ∈ [VInt 4; VInt 8; VInt 16].
Proof.
  apply (sample_hyperparameters_membership (Demo.start Demo.small_space 3) 1
           (fields_dict (VRef 2) (VRef 3) (VRef 4) (VRef 5)) 2 3 4 5);
    solve [vm_compute; reflexivity | discriminate].
Defined.

Lemma train_and_evaluate_empty_validation_witness :
  fst (train_and_evaluate (VRef 1) (VInt 3) [1; 2] [] 2 (Demo.start Demo.config_heap 0))
  = Raise ZeroDivisionError.
Proof.
  apply (train_and_evaluate_empty_validation (VRef 1) (VInt 3) [1; 2] [] 2
           (Demo.start Demo.config_heap 0)
           (VRef 2) (VFloat float_zero) (VFloat float_0_01) (VInt 4)).
  - lia.
  - exact config_heap_is_config.
  - reflexivity.
Defined.

(** C4, as the specification states it, fails on a training phase of one
    batch: the reset of the gradients comes before the backward pass, not
    after the optimizer step. *)
Lemma train_phase_order_not_spec :
  log (snd (train_phase [1] (VInt 4) (Demo.start Demo.config_heap 0)))
  = ModelTrain :: batch_steps 1 /\
  log (snd (train_phase [1] (VInt 4) (Demo.start Demo.config_heap 0)))
  <> ModelTrain :: flat_map spec_batch_steps [1].
Proof. split; [reflexivity|]. vm_compute. discriminate. Qed.

(** C5, as the specification states it, fails on {hidden_layers: []}: three
    keys are missing, and the call raises the IndexError of [random.choice]
    on the empty list, not a KeyError. *)
Lemma sample_hyperparameters_missing_key_not_KeyError :
  lacks_required_key Demo.empty_choice_space (VRef 1) /\
  fst (sample_hyperparameters (VRef 1) (Demo.start Demo.empty_choice_space 0))
  = Raise IndexError /\
  ~ (exists k,
       fst (sample_hyperparameters (VRef 1) (Demo.start Demo.empty_choice_space 0))
       = Raise (KeyError k)).
Proof.
  split; [|split].
  - exists 1%positive, (list_to_map [("hidden_layers", VRef 2)]), "batch_size".
    repeat split; try (vm_compute; reflexivity).
    unfold required_keys. set_solver.
  - vm_compute. reflexivity.
  - intros [k Hk]. vm_compute in Hk. discriminate.
Qed.

Lemma sample_hyperparameters_missing_key_witness :
  (exists e,
     fst (sample_hyperparameters (VRef 1) (Demo.start Demo.no_learning_rate_space 0))
     = Raise e) /\
  (forall lp d pre k post,
     VRef 1 = VRef lp -> Demo.no_learning_rate_space !! lp = Some (ODict d) ->
     required_keys = pre ++ k :: post -> d !! k = None ->
     Forall (fun k' => exists lc xs,
               d !! k' = Some (VRef lc) /\
               Demo.no_learning_rate_space !! lc = Some (OList xs) /\ xs <> [])
            pre ->
     fst (sample_hyperparameters (VRef 1) (Demo.start Demo.no_learning_rate_space 0))
     = Raise (KeyError (VStr k))).
Proof.
  apply (sample_hyperparameters_missing_key
           (Demo.start Demo.no_learning_rate_space 0) (VRef 1)).
  exact no_learning_rate_lacks_key.
Defined.

Lemma train_and_evaluate_config_unchanged_witness :
  VRef 1 = VRef 1 /\
  heap (snd Demo.run_two_epochs) = Demo.config_heap /\
  forall hl dr lr bs,
    is_config Demo.config_heap (VRef 1) hl dr lr bs ->
    is_config (heap (snd Demo.run_two_epochs)) (VRef 1) hl dr lr bs.
Proof.
  apply (train_and_evaluate_config_unchanged (VRef 1) (VInt 3) [1; 2] [5; 6; 7] 2
           (Demo.start Demo.config_heap 0) (float_of_int 4) (VRef 1)
           (snd Demo.run_two_epochs)).
  vm_compute. reflexivity.
Defined.

Lemma sample_hyperparameters_frame_witness :
  heap (snd (sample_hyperparameters (VRef 1) (Demo.start Demo.small_space 3)))
    !! 2%positive
  = Some (OList [VRef 6; VRef 7]).
Proof.
  apply (sample_hyperparameters_frame (VRef 1) (Demo.start Demo.small_space 3)).
  vm_compute. reflexivity.
Defined.

Lemma sample_hyperparameters_singletons_witness :
  exists lc s',
    sample_hyperparameters (VRef 1) (Demo.start Demo.singleton_space 7)
    = (Ok (VRef lc), s') /\
    heap s' !! lc
    = Some (ODict (fields_dict (VRef 6) (VFloat float_zero) (VFloat float_0_01) (VInt 4))) /\
    heap s' !! 6%positive = Some (OList [VInt 16]).
Proof.
  apply (sample_hyperparameters_singletons (Demo.start Demo.singleton_space 7) 1 2 3 4 5 6);
    vm_compute; reflexivity.
Defined.

Lemma train_and_evaluate_no_epochs_witness :
  exists s',
    train_and_evaluate (VRef 1) (VInt 3) [1; 2] [5; 6; 7] (-1)
      (Demo.start Demo.config_heap 0)
    = (Ok (float_inf, VRef 1), s') /\
    heap s' = Demo.config_heap /\
    validation_means (VRef 1) (VInt 3) [1; 2] [5; 6; 7] (-1)
      (Demo.start Demo.config_heap 0) = [] /\
    log s' =
      [] ++
      [Print "Testing configuration: " (VRef 1);
       ModelInit (VInt 3) (VRef 2) (VFloat float_zero);
       AdamInit (VFloat float_0_01); LoaderInit [1; 2] (VInt 4) true;
       LoaderInit [5; 6; 7] (VInt 4) false;
       Print "Validation Loss: " (VFloat float_inf)].
Proof.
  apply (train_and_evaluate_no_epochs (VRef 1) (VInt 3) [1; 2] [5; 6; 7] (-1)
           (Demo.start Demo.config_heap 0)
           (VRef 2) (VFloat float_zero) (VFloat float_0_01) (VInt 4)).
  - lia.
  - exact config_heap_is_config.
Defined.

(** The run on the framework whose losses are NaN: both means are NaN and
    the call returns positive infinity. *)
Example nan_run_returns_inf :
  validation_means (VRef 1) (VInt 3) [1; 2] [5; 6; 7] 2 Demo.nan_start
  = [S754_nan; S754_nan] /\
  fst Demo.run_nan_epochs = Ok (float_inf, VRef 1).
Proof. split; vm_compute; reflexivity. Qed.


(** * Further properties of the two functions *)

(** ** sample_hyperparameters: outcome, draws, failures *)

Section SamplerOutcome.
Context {R W B D : Type} `{!RandomSource R}.
Implicit Types (s : state R W B D) (l : loc) (k : string).

Lemma same_but_rand_refl s : same_but_rand s s.
Proof. now repeat split. Qed.

Lemma same_but_rand_set s s1 r : same_but_rand s s1 -> same_but_rand s (set_rand r s1).
Proof. intros H. exact H. Qed.

(** One key of the sampler: whatever holds of a failure and of the rest of
    the function in every state that differs in the random source only,
    holds of the whole. *)
Lemma draw_field_post s ps k {C} (f : val -> M C) (Post : result C * state R W B D -> Prop) :
  (forall e s1, same_but_rand s s1 -> Post (Raise e, s1)) ->
  (forall v s1, same_but_rand s s1 -> Post (f v s1)) ->
  forall s1, same_but_rand s s1 ->
    Post (bind (getitem ps k) (fun c => bind (random_choice c) f) s1).
Proof.
  intros Hraise Hrest s1 Hs1. unfold bind.
  pose proof (getitem_state ps k s1) as Hg.
  destruct (getitem ps k s1) as [[c|e] s2]; simpl in Hg; subst s2; [|now apply Hraise].
  destruct (random_choice_state c s1) as [r' Hr'].
  destruct (random_choice c s1) as [[v|e] s3]; simpl in Hr'; subst s3.
  - apply Hrest. now apply same_but_rand_set.
  - apply Hraise. now apply same_but_rand_set.
Qed.

(** What a call of the sampler leaves behind, on any argument. *)
Lemma sample_hyperparameters_outcome ps s :
  world (snd (sample_hyperparameters ps s)) = world s /\
  log (snd (sample_hyperparameters ps s)) = log s /\
  match fst (sample_hyperparameters ps s) with
  | Ok cfg =>
      exists v1 v2 v3 v4,
        cfg = VRef (fresh (dom (heap s))) /\
        heap (snd (sample_hyperparameters ps s))
        = <[fresh (dom (heap s)) := ODict (fields_dict v1 v2 v3 v4)]> (heap s)
  | Raise _ => heap (snd (sample_hyperparameters ps s)) = heap s
  end.
Proof.
  unfold sample_hyperparameters.
  apply (draw_field_post s ps "hidden_layers" _
    (fun out => world (snd out) = world s /\ log (snd out) = log s /\
       match fst out with
       | Ok cfg => exists v1 v2 v3 v4,
           cfg = VRef (fresh (dom (heap s))) /\
           heap (snd out) = <[fresh (dom (heap s)) := ODict (fields_dict v1 v2 v3 v4)]> (heap s)
       | Raise _ => heap (snd out) = heap s
       end));
    [intros e s1 (Hh & Hw & Hl); simpl; auto| |apply same_but_rand_refl].
  intros v1 s1 H1.
  apply (draw_field_post s ps "dropout_rate"); [intros e s2 (Hh & Hw & Hl); simpl; auto| |exact H1].
  intros v2 s2 H2.
  apply (draw_field_post s ps "learning_rate"); [intros e s3 (Hh & Hw & Hl); simpl; auto| |exact H2].
  intros v3 s3 H3.
  apply (draw_field_post s ps "batch_size"); [intros e s4 (Hh & Hw & Hl); simpl; auto| |exact H3].
  intros v4 s4 (Hh & Hw & Hl). simpl. rewrite Hh.
  repeat split; auto. now exists v1, v2, v3, v4.
Qed.

(** X1. Whatever the argument, a call of [sample_hyperparameters] that
    returns gives a reference to a new dict, at a location no object had
    before; the dict has exactly the four keys hidden_layers, dropout_rate,
    learning_rate and batch_size; the heap is the old heap plus this one
    object; no call to print or into the framework is made. *)
Theorem sample_hyperparameters_returns_new_dict ps s cfg s' :
  sample_hyperparameters ps s = (Ok cfg, s') ->
  exists lc d,
    cfg = VRef lc /\ heap s !! lc = None /\
    heap s' = <[lc := ODict d]> (heap s) /\
    dom d = list_to_set required_keys /\
    world s' = world s /\ log s' = log s.
Proof.
  intros E. pose proof (sample_hyperparameters_outcome ps s) as (Hw & Hl & Hout).
  rewrite E in Hw, Hl, Hout. simpl in Hw, Hl, Hout.
  destruct Hout as (v1 & v2 & v3 & v4 & -> & Hheap).
  exists (fresh (dom (heap s))), (fields_dict v1 v2 v3 v4).
  split; [reflexivity|]. split; [apply fresh_loc_unused|].
  split; [exact Hheap|]. split; [|now split].
  unfold fields_dict, required_keys. simpl.
  rewrite !dom_insert_L, dom_empty_L. set_solver.
Qed.

(** X2. A call of [sample_hyperparameters] that raises has allocated
    nothing and called nothing: heap, framework state and log are as before
    the call; only the random source may have advanced. *)
Theorem sample_hyperparameters_raise_frame ps s e s' :
  sample_hyperparameters ps s = (Raise e, s') -> same_but_rand s s'.
Proof.
  intros E. pose proof (sample_hyperparameters_outcome ps s) as (Hw & Hl & Hout).
  rewrite E in Hw, Hl, Hout. simpl in Hw, Hl, Hout. now repeat split.
Qed.

(** [random.choice] on a non-empty list, with the draw spelled out. *)
Lemma random_choice_list_draw l xs s :
  heap s !! l = Some (OList xs) -> xs <> [] ->
  exists v,
    xs !! fst (randbelow (rand s) (length xs)) = Some v /\
    random_choice (VRef l) s
    = (Ok v, set_rand (snd (randbelow (rand s) (length xs))) s).
Proof.
  intros Hl Hne. unfold random_choice. rewrite Hl. simpl.
  destruct xs as [|x xs']; [congruence|]. simpl Nat.eqb. cbv iota.
  pose proof (randbelow_lt (rand s) (length (x :: xs')) ltac:(simpl; lia)) as Hlt.
  destruct (randbelow (rand s) (length (x :: xs'))) as [i r']. simpl in Hlt |- *.
  destruct (lookup_lt_is_Some_2 (x :: xs') i Hlt) as [v Hv].
  exists v. unfold choice_index. now rewrite Hv.
Qed.

Lemma draw_field_draw l d k lc xs s {C} (f : val -> M C) :
  heap s !! l = Some (ODict d) -> d !! k = Some (VRef lc) ->
  heap s !! lc = Some (OList xs) -> xs <> [] ->
  exists v,
    xs !! fst (randbelow (rand s) (length xs)) = Some v /\
    bind (getitem (VRef l) k) (fun c => bind (random_choice c) f) s
    = f v (set_rand (snd (randbelow (rand s) (length xs))) s).
Proof.
  intros Hl Hk Hlc Hne.
  destruct (random_choice_list_draw lc xs s Hlc Hne) as (v & Hi & Hrc).
  exists v. split; [exact Hi|].
  rewrite (bind_ok _ _ _ _ _ (getitem_dict l d k _ s Hl Hk)).
  now rewrite (bind_ok _ _ _ _ _ Hrc).
Qed.

(** X3. The sampler draws exactly four times from the random source, in the
    order hidden_layers, dropout_rate, learning_rate, batch_size, each time
    below the length of that key's list; each field is the element at the
    index drawn, and the random source is left in the state after the
    fourth draw. *)
Theorem sample_hyperparameters_four_draws s lp d l1 l2 l3 l4 c1 c2 c3 c4 :
  heap s !! lp = Some (ODict d) ->
  d !! "hidden_layers" = Some (VRef l1) -> heap s !! l1 = Some (OList c1) -> c1 <> [] ->
  d !! "dropout_rate" = Some (VRef l2) -> heap s !! l2 = Some (OList c2) -> c2 <> [] ->
  d !! "learning_rate" = Some (VRef l3) -> heap s !! l3 = Some (OList c3) -> c3 <> [] ->
  d !! "batch_size" = Some (VRef l4) -> heap s !! l4 = Some (OList c4) -> c4 <> [] ->
  let d1 := randbelow (rand s) (length c1) in
  let d2 := randbelow (snd d1) (length c2) in
  let d3 := randbelow (snd d2) (length c3) in
  let d4 := randbelow (snd d3) (length c4) in
  exists v1 v2 v3 v4 s',
    c1 !! fst d1 = Some v1 /\ c2 !! fst d2 = Some v2 /\
    c3 !! fst d3 = Some v3 /\ c4 !! fst d4 = Some v4 /\
    sample_hyperparameters (VRef lp) s = (Ok (VRef (fresh (dom (heap s)))), s') /\
    heap s' !! fresh (dom (heap s)) = Some (ODict (fields_dict v1 v2 v3 v4)) /\
    rand s' = snd d4.
Proof.
  intros Hp K1 H1 N1 K2 H2 N2 K3 H3 N3 K4 H4 N4 d1 d2 d3 d4.
  unfold sample_hyperparameters.
  edestruct (draw_field_draw (C:=val) lp d "hidden_layers" l1 c1 s) as (v1 & I1 & E1);
    [exact Hp|exact K1|exact H1|exact N1|]. rewrite E1. cbv beta. clear E1.
  edestruct (draw_field_draw (C:=val) lp d "dropout_rate" l2 c2 (set_rand (snd d1) s))
    as (v2 & I2 & E2); [exact Hp|exact K2|exact H2|exact N2|].
  rewrite E2. cbv beta. clear E2.
  edestruct (draw_field_draw (C:=val) lp d "learning_rate" l3 c3
               (set_rand (snd d2) (set_rand (snd d1) s)))
    as (v3 & I3 & E3); [exact Hp|exact K3|exact H3|exact N3|].
  rewrite E3. cbv beta. clear E3.
  edestruct (draw_field_draw (C:=val) lp d "batch_size" l4 c4
               (set_rand (snd d3) (set_rand (snd d2) (set_rand (snd d1) s))))
    as (v4 & I4 & E4); [exact Hp|exact K4|exact H4|exact N4|].
  rewrite E4. cbv beta. clear E4.
  exists v1, v2, v3, v4. eexists. repeat split; try eassumption.
  simpl. apply lookup_insert_eq.
Qed.

(** X4. When one of the four keys is bound to an empty list and every
    required key before it is bound to a non-empty list, the call raises
    the IndexError of [random.choice]; the keys after it are not looked
    at. *)
Theorem sample_hyperparameters_empty_list s lp d pre k post lc :
  heap s !! lp = Some (ODict d) ->
  required_keys = pre ++ k :: post ->
  d !! k = Some (VRef lc) -> heap s !! lc = Some (OList []) ->
  Forall (fun k' => exists lc' xs,
            d !! k' = Some (VRef lc') /\ heap s !! lc' = Some (OList xs) /\ xs <> [])
         pre ->
  fst (sample_hyperparameters (VRef lp) s) = Raise IndexError.
Proof.
  intros Hp Hsplit Hk Hlc Hpre.
  unfold required_keys in Hsplit. unfold sample_hyperparameters.
  destruct pre as [|p1 [|p2 [|p3 [|p4 pre]]]]; simpl in Hsplit;
    injection Hsplit as <-;
    repeat match goal with
      | H : _ :: _ = _ :: _ |- _ => injection H as <-
      | H : [] = _ ++ _ :: _ |- _ => now apply app_cons_not_nil in H
      | H : [] = _ :: _ |- _ => discriminate H
      | H : _ :: _ = [] |- _ => discriminate H
      end;
    subst;
    repeat match goal with
      | H : Forall _ (_ :: _) |- _ =>
          apply Forall_cons in H as [(? & ? & ? & ? & ?) H]
      end;
    repeat match goal with
      | Hk' : d !! ?key = Some (VRef ?lc'), Hl : heap s !! ?lc' = Some (OList ?xs),
        Hne : ?xs <> [] |- context [bind (getitem (VRef lp) ?key) _ ?st] =>
          let v := fresh "v" in let r := fresh "r" in let E := fresh "E" in
          edestruct (draw_field (C:=val) lp d key lc' xs st) as (v & r & _ & E);
            [exact Hp | exact Hk' | exact Hl | exact Hne | ];
          rewrite E; cbv beta; clear E Hk'
      end;
    (erewrite bind_ok; [|eapply getitem_dict; [exact Hp|exact Hk]];
     erewrite bind_raise; [reflexivity|]; apply random_choice_empty; exact Hlc).
Qed.

End SamplerOutcome.

(** ** train_and_evaluate: the validation phase *)

Section ValidationFacts.
Context {R W B D : Type} `{!Framework W B D}.
Implicit Types (s : state R W B D) (ds : D).

(** The validation loop never raises: it sums the losses from left to right
    and makes two calls per batch. *)
Lemma for_fold_validate_run (batches : list B) acc s :
  exists s',
    for_fold batches acc validate_batch s
    = (Ok (fold_left float_add (validation_losses batches s) acc), s') /\
    log s' = log s ++ flat_map validate_steps batches.
Proof.
  revert acc s. induction batches as [|b batches IH]; intros acc s.
  - exists s. split; [reflexivity|]. simpl. now rewrite app_nil_r.
  - simpl for_fold. unfold bind at 1.
    change (validate_batch b acc s)
      with (Ok (float_add acc (fw_item (world (snd (validate_batch b float_zero s))))),
            snd (validate_batch b float_zero s)).
    destruct (IH (float_add acc (fw_item (world (snd (validate_batch b float_zero s)))))
                 (snd (validate_batch b float_zero s))) as (s' & E & L).
    exists s'. split; [exact E|].
    rewrite L. simpl. now rewrite <- !app_assoc.
Qed.

Lemma fold_float_add_nan_acc (ls : list float) : fold_left float_add ls S754_nan = S754_nan.
Proof. induction ls as [|l ls IH]; [reflexivity|exact IH]. Qed.

Lemma float_add_nan_r x : float_add x S754_nan = S754_nan.
Proof. now destruct x. Qed.

Lemma fold_float_add_nan (ls : list float) acc :
  Exists (fun l => is_nan l = true) ls -> fold_left float_add ls acc = S754_nan.
Proof.
  intros Hex. revert acc. induction Hex as [l ls Hl|l ls Hex IH]; intros acc.
  - destruct l; try discriminate. simpl. rewrite float_add_nan_r.
    apply fold_float_add_nan_acc.
  - simpl. apply IH.
Qed.

Lemma validation_losses_length (batches : list B) s :
  length (validation_losses batches s) = length batches.
Proof.
  revert s. induction batches as [|b batches IH]; intros s; [reflexivity|].
  simpl. now rewrite IH.
Qed.

(** The validation phase, result and log. *)
Lemma validate_phase_trace ds bs s :
  fst (validate_phase ds bs s)
  = float_truediv_int
      (fold_left float_add
         (validation_losses (fw_batches ds bs) (validation_start s)) float_zero)
      (loader_len ds bs) /\
  log (snd (validate_phase ds bs s))
  = log s ++ ModelEval :: NoGradEnter ::
      flat_map validate_steps (fw_batches ds bs) ++ [NoGradExit].
Proof.
  destruct (for_fold_validate_run (fw_batches ds bs) float_zero (validation_start s))
    as (s' & E & L).
  unfold validate_phase, bind, call, lift. simpl.
  unfold validation_start in *. simpl in E, L |- *.
  rewrite E. simpl. split; [reflexivity|].
  rewrite L. now rewrite <- !app_assoc.
Qed.

(** X5. The validation phase of an epoch, whether its averaging succeeds or
    raises, switches the model to evaluation mode, enters [no_grad], runs
    the model and the loss function once on every batch in the order of the
    loader, and leaves [no_grad]; it never resets gradients, never
    propagates backward and never steps the optimizer. *)
Theorem validate_phase_calls ds bs s :
  log (snd (validate_phase ds bs s))
  = log s ++ ModelEval :: NoGradEnter ::
      flat_map validate_steps (fw_batches ds bs) ++ [NoGradExit] /\
  Forall (fun o : op B D => o <> ZeroGrad /\ o <> Backward /\ o <> OptStep)
    (ModelEval :: NoGradEnter ::
       flat_map validate_steps (fw_batches ds bs) ++ [NoGradExit]).
Proof.
  split; [apply validate_phase_trace|].
  repeat (constructor; [repeat split; discriminate|]).
  apply Forall_app. split.
  - induction (fw_batches ds bs) as [|b batches IH]; [constructor|].
    simpl. repeat (constructor; [repeat split; discriminate|]). exact IH.
  - repeat constructor; discriminate.
Qed.

(** X6. The mean validation loss of an epoch is the float sum of the batch
    losses, added from left to right to 0.0, divided by the number of
    batches of the loader (not by the number of samples); with no batch
    the division raises. *)
Theorem validate_phase_mean ds bs s :
  let losses := validation_losses (fw_batches ds bs) (validation_start s) in
  fst (validate_phase ds bs s)
  = if Nat.eqb (length losses) 0 then Raise ZeroDivisionError
    else Ok (SFdiv prec emax (fold_left float_add losses float_zero)
               (float_of_int (Z.of_nat (length losses)))).
Proof.
  intros losses. destruct (validate_phase_trace ds bs s) as [-> _].
  fold losses. unfold float_truediv_int, loader_len, losses.
  rewrite validation_losses_length.
  destruct (fw_batches ds bs) as [|b batches]; reflexivity.
Qed.

(** X7. If the loss of at least one validation batch is NaN, the mean
    validation loss of that epoch is NaN. *)
Theorem validate_phase_nan ds bs s :
  Exists (fun l => is_nan l = true)
    (validation_losses (fw_batches ds bs) (validation_start s)) ->
  fst (validate_phase ds bs s) = Ok S754_nan.
Proof.
  intros Hex. destruct (validate_phase_trace ds bs s) as [-> _].
  rewrite (fold_float_add_nan _ _ Hex).
  unfold float_truediv_int, loader_len.
  rewrite <- (validation_losses_length (fw_batches ds bs) (validation_start s)).
  destruct (validation_losses (fw_batches ds bs) (validation_start s)) as [|l ls].
  - inversion Hex.
  - reflexivity.
Qed.

End ValidationFacts.

(** ** train_and_evaluate: the means of the epochs and their minimum *)

Section EpochMeans.
Context {R W B D : Type} `{!Framework W B D}.
Implicit Types (s : state R W B D) (ds : D).




End EpochMeans.

(** ** train_and_evaluate: failures, completion, the log of a run *)

Section TrainerOutcome.
Context {R W B D : Type} `{!Framework W B D}.
Implicit Types (s : state R W B D) (ds : D).

(** The training phase with its log. *)
Lemma train_phase_trace train_ds bs s :
  exists s', train_phase train_ds bs s = (Ok tt, s') /\
    log s' = log s ++ ModelTrain ::
      flat_map batch_steps
        (fst (fw_shuffled train_ds bs (fw_exec (heap s) ModelTrain (world s)))).
Proof.
  unfold train_phase, bind, call, iter_train_loader. simpl.
  destruct (fw_shuffled train_ds bs (fw_exec (heap s) ModelTrain (world s)))
    as [batches w']. simpl.
  destruct (for_each_train_batch_run batches
              (State (heap s) (rand s) w' (log s ++ [ModelTrain]))) as (s' & E' & L').
  exists s'. split; [exact E'|]. rewrite L'. simpl. now rewrite <- app_assoc.
Qed.

Lemma epoch_loop_S n train_ds val_ds bs best :
  epoch_loop (R:=R) (S n) train_ds val_ds bs best
  = bind (epoch train_ds val_ds bs)
      (fun v => epoch_loop n train_ds val_ds bs (track_best v best)).
Proof. reflexivity. Qed.

(** An epoch with at least one validation batch returns its mean. *)
Lemma epoch_returns train_ds val_ds bs s :
  fw_batches val_ds bs <> [] ->
  exists m s', epoch train_ds val_ds bs s = (Ok m, s').
Proof.
  intros Hne. unfold epoch.
  destruct (train_phase_trace train_ds bs s) as (s1 & E1 & _).
  rewrite (bind_ok _ _ _ _ _ E1).
  destruct (validate_phase_trace val_ds bs s1) as [Hres _].
  destruct (validate_phase val_ds bs s1) as [r s2]. simpl in Hres. subst r.
  unfold float_truediv_int, loader_len.
  destruct (fw_batches val_ds bs) as [|b batches]; [congruence|].
  simpl. now eexists _, _.
Qed.

(** An epoch with no validation batch raises after its training phase. *)
Lemma epoch_empty_raises train_ds val_ds bs s :
  fw_batches val_ds bs = [] ->
  exists s', epoch train_ds val_ds bs s = (Raise ZeroDivisionError, s') /\
    log s' = log s ++ ModelTrain ::
      flat_map batch_steps
        (fst (fw_shuffled train_ds bs (fw_exec (heap s) ModelTrain (world s))))
      ++ [ModelEval; NoGradEnter; NoGradExit].
Proof.
  intros Hempty. unfold epoch.
  destruct (train_phase_trace train_ds bs s) as (s1 & E1 & L1).
  rewrite (bind_ok _ _ _ _ _ E1).
  destruct (validate_phase_trace val_ds bs s1) as [Hres Hlog].
  destruct (validate_phase val_ds bs s1) as [r s2]. simpl in Hres, Hlog. subst r.
  exists s2. unfold loader_len. rewrite Hempty in *. simpl in Hlog |- *.
  split; [reflexivity|]. rewrite Hlog, L1. now rewrite <- app_assoc.
Qed.

Lemma epoch_loop_returns n train_ds val_ds bs best s :
  fw_batches val_ds bs <> [] ->
  exists r s', epoch_loop n train_ds val_ds bs best s = (Ok r, s').
Proof.
  intros Hne. revert best s. induction n as [|n IH]; intros best s.
  - now exists best, s.
  - destruct (epoch_returns train_ds val_ds bs s Hne) as (m & s1 & E).
    rewrite epoch_loop_S, (bind_ok _ _ _ _ _ E). apply IH.
Qed.

(** With its four keys and a validation batch, or with no epoch to run, the
    call returns. *)
Lemma train_and_evaluate_returns params input_dim train_ds val_ds num_epochs s hl dr lr bs :
  is_config (heap s) params hl dr lr bs ->
  fw_batches val_ds bs <> [] \/ (num_epochs <= 0)%Z ->
  exists best s',
    train_and_evaluate params input_dim train_ds val_ds num_epochs s
    = (Ok (best, params), s').
Proof.
  intros Hcfg Hcase.
  destruct (setup_run params input_dim train_ds val_ds s hl dr lr bs Hcfg)
    as (s1 & E1 & _).
  unfold train_and_evaluate. rewrite (bind_ok _ _ _ _ _ E1).
  assert (Hloop : exists r s2,
    epoch_loop (Z.to_nat num_epochs) train_ds val_ds bs float_inf s1 = (Ok r, s2)).
  { destruct Hcase as [Hne|Hn].
    - now apply epoch_loop_returns.
    - replace (Z.to_nat num_epochs) with 0 by lia. now eexists _, _. }
  destruct Hloop as (r & s2 & E2). rewrite (bind_ok _ _ _ _ _ E2).
  now eexists _, _.
Qed.

(** X8. When [params] is a dict that lacks one of the four keys, the call
    raises the KeyError of the first missing key (in the order hidden_layers,
    dropout_rate, learning_rate, batch_size) right after the progress
    message: no model, optimizer or loader has been constructed. *)
Theorem train_and_evaluate_missing_key
    lp d pre k post input_dim train_ds val_ds num_epochs s :
  heap s !! lp = Some (ODict d) ->
  required_keys = pre ++ k :: post ->
  d !! k = None ->
  Forall (fun k' => d !! k' <> None) pre ->
  train_and_evaluate (VRef lp) input_dim train_ds val_ds num_epochs s
  = (Raise (KeyError (VStr k)),
     State (heap s) (rand s)
       (fw_exec (heap s) (Print "Testing configuration: " (VRef lp)) (world s))
       (log s ++ [Print "Testing configuration: " (VRef lp)])).
Proof.
  intros Hp Hsplit Hk Hpre. unfold required_keys in Hsplit.
  destruct pre as [|p1 [|p2 [|p3 [|p4 pre]]]]; simpl in Hsplit;
    injection Hsplit as <-;
    repeat match goal with
      | H : _ :: _ = _ :: _ |- _ => injection H as <-
      | H : [] = _ ++ _ :: _ |- _ => now apply app_cons_not_nil in H
      | H : [] = _ :: _ |- _ => discriminate H
      | H : _ :: _ = [] |- _ => discriminate H
      end;
    subst;
    repeat match goal with
      | H : Forall _ (_ :: _) |- _ => apply Forall_cons in H as [? H]
      end;
    repeat match goal with
      | H : d !! ?key <> None |- _ =>
          let v := fresh "v" in
          destruct (d !! key) as [v|] eqn:?; [clear H|congruence]
      end;
    unfold train_and_evaluate, setup, bind, call, getitem; simpl;
    repeat match goal with
      | H : ?x = _ |- context [?x] => rewrite H; simpl
      end;
    reflexivity.
Qed.

(** X9. With [num_epochs >= 1] and a validation loader that yields no batch,
    the call raises only after the set-up and one complete training phase:
    the model has been trained on every batch of the first epoch, and the
    summary message is never printed. *)
Theorem train_and_evaluate_empty_validation_log
    params input_dim train_ds val_ds num_epochs s hl dr lr bs :
  (1 <= num_epochs)%Z ->
  is_config (heap s) params hl dr lr bs ->
  fw_batches val_ds bs = [] ->
  exists s1 s',
    setup params input_dim train_ds val_ds s = (Ok bs, s1) /\
    train_and_evaluate params input_dim train_ds val_ds num_epochs s
    = (Raise ZeroDivisionError, s') /\
    log s' = log s ++
      [Print "Testing configuration: " params; ModelInit input_dim hl dr;
       AdamInit lr; LoaderInit train_ds bs true; LoaderInit val_ds bs false]
      ++ ModelTrain ::
         flat_map batch_steps
           (fst (fw_shuffled train_ds bs (fw_exec (heap s1) ModelTrain (world s1))))
      ++ [ModelEval; NoGradEnter; NoGradExit].
Proof.
  intros Hn Hcfg Hempty.
  destruct (setup_run params input_dim train_ds val_ds s hl dr lr bs Hcfg)
    as (s1 & E1 & L1).
  destruct (epoch_empty_raises train_ds val_ds bs s1 Hempty) as (s2 & E2 & L2).
  exists s1, s2. split; [exact E1|].
  unfold train_and_evaluate. rewrite (bind_ok _ _ _ _ _ E1).
  destruct (Z.to_nat num_epochs) as [|n] eqn:En; [lia|].
  rewrite epoch_loop_S.
  rewrite (bind_raise _ _ _ _ _ (bind_raise _ _ _ _ _ E2)).
  split; [reflexivity|]. rewrite L2, L1. now rewrite <- !app_assoc.
Qed.

(** X10. For a configuration with its four keys and [num_epochs >= 1], the
    call returns exactly when the validation loader yields at least one
    batch. *)
Theorem train_and_evaluate_returns_iff
    params input_dim train_ds val_ds num_epochs s hl dr lr bs :
  (1 <= num_epochs)%Z ->
  is_config (heap s) params hl dr lr bs ->
  (exists best s',
     train_and_evaluate params input_dim train_ds val_ds num_epochs s
     = (Ok (best, params), s'))
  <-> fw_batches val_ds bs <> [].
Proof.
  intros Hn Hcfg. split.
  - intros (best & s' & E) Hempty.
    destruct (setup_run params input_dim train_ds val_ds s hl dr lr bs Hcfg)
      as (s1 & E1 & _).
    destruct (epoch_empty_raises train_ds val_ds bs s1 Hempty) as (s2 & E2 & _).
    unfold train_and_evaluate in E. rewrite (bind_ok _ _ _ _ _ E1) in E.
    destruct (Z.to_nat num_epochs) as [|n] eqn:En; [lia|].
    rewrite epoch_loop_S in E.
    rewrite (bind_raise _ _ _ _ _ (bind_raise _ _ _ _ _ E2)) in E.
    discriminate E.
  - intros Hne. eapply train_and_evaluate_returns; eauto.
Qed.

Lemma track_best_le v best :
  is_nan best = false -> float_le (track_best v best) best = true.
Proof.
  intros Hb. unfold track_best. destruct (float_lt v best) eqn:E.
  - now apply float_lt_le.
  - now apply float_le_refl.
Qed.

Lemma epoch_loop_one_more n train_ds val_ds bs best s r s1 r' s2 :
  is_nan best = false ->
  epoch_loop n train_ds val_ds bs best s = (Ok r, s1) ->
  epoch_loop (S n) train_ds val_ds bs best s = (Ok r', s2) ->
  float_le r' r = true.
Proof.
  revert best s. induction n as [|n IH]; intros best s Hb E E'.
  - simpl in E. unfold ret in E. injection E as <- <-.
    rewrite epoch_loop_S in E'. unfold bind in E'.
    destruct (epoch train_ds val_ds bs s) as [[v|e] s3]; [|discriminate].
    simpl in E'. unfold ret in E'. injection E' as <- <-.
    now apply track_best_le.
  - rewrite epoch_loop_S in E, E'. unfold bind at 1 in E. unfold bind at 1 in E'.
    destruct (epoch train_ds val_ds bs s) as [[v|e] s3]; [|discriminate].
    apply (IH (track_best v best) s3); auto using track_best_not_nan.
Qed.

(** X11. From the same state, one more epoch never gives a greater result:
    when the calls with [n] and with [n + 1] epochs both return, the best
    loss of the longer run is less than or equal to that of the shorter. *)
Theorem train_and_evaluate_one_more_epoch
    params input_dim train_ds val_ds n s best p s1 best' p' s2 :
  (0 <= n)%Z ->
  train_and_evaluate params input_dim train_ds val_ds n s = (Ok (best, p), s1) ->
  train_and_evaluate params input_dim train_ds val_ds (n + 1) s = (Ok (best', p'), s2) ->
  float_le best' best = true.
Proof.
  intros Hn E1 E2. unfold train_and_evaluate in E1, E2.
  replace (Z.to_nat (n + 1)) with (S (Z.to_nat n)) in E2 by lia.
  unfold bind at 1 in E1. unfold bind at 1 in E2.
  destruct (setup params input_dim train_ds val_ds s) as [[bs|e] s0]; [|discriminate].
  unfold bind at 1 in E1. unfold bind at 1 in E2.
  destruct (epoch_loop (Z.to_nat n) train_ds val_ds bs float_inf s0)
    as [[r|e] s3] eqn:E; [|discriminate].
  destruct (epoch_loop (S (Z.to_nat n)) train_ds val_ds bs float_inf s0)
    as [[r'|e] s4] eqn:E'; [|discriminate].
  unfold bind, call, ret in E1, E2. simpl in E1, E2.
  injection E1 as <- _ _. injection E2 as <- _ _.
  apply (epoch_loop_one_more (Z.to_nat n) train_ds val_ds bs float_inf s0 r s3 r' s4);
    [reflexivity|exact E|exact E'].
Qed.

End TrainerOutcome.

Section TrainerLog.
Context {R W B D : Type} `{!Framework W B D}.
Implicit Types (s : state R W B D) (ds : D).

Lemma filter_batch_steps (batches : list B) :
  List.filter (is_mode_switch (D:=D)) (flat_map batch_steps batches) = [].
Proof. induction batches as [|b batches IH]; [reflexivity|exact IH]. Qed.

Lemma filter_validate_steps (batches : list B) :
  List.filter (is_mode_switch (D:=D)) (flat_map validate_steps batches) = [].
Proof. induction batches as [|b batches IH]; [reflexivity|exact IH]. Qed.

(** A set-up that succeeds has made its five calls. *)
Lemma setup_ok_log params input_dim train_ds val_ds s bs s1 :
  setup params input_dim train_ds val_ds s = (Ok bs, s1) ->
  exists hl dr lr,
    log s1 = log s ++
      [Print "Testing configuration: " params; ModelInit input_dim hl dr;
       AdamInit lr; LoaderInit train_ds bs true; LoaderInit val_ds bs false].
Proof.
  unfold setup. unfold bind at 1. simpl.
  set (s0 := State (heap s) (rand s)
               (fw_exec (heap s) (Print "Testing configuration: " params) (world s))
               (log s ++ [Print "Testing configuration: " params])).
  unfold bind at 1.
  pose proof (getitem_state params "hidden_layers" s0) as G1.
  destruct (getitem params "hidden_layers" s0) as [[hl|e] t1]; [|discriminate].
  simpl in G1. subst t1. unfold bind at 1.
  pose proof (getitem_state params "dropout_rate" s0) as G2.
  destruct (getitem params "dropout_rate" s0) as [[dr|e] t2]; [|discriminate].
  simpl in G2. subst t2. unfold bind at 1.
  pose proof (getitem_state params "learning_rate" s0) as G3.
  destruct (getitem params "learning_rate" s0) as [[lr|e] t3]; [|discriminate].
  simpl in G3. subst t3. unfold bind at 1.
  pose proof (getitem_state params "batch_size" s0) as G4.
  destruct (getitem params "batch_size" s0) as [[bs'|e] t4]; [|discriminate].
  simpl in G4. subst t4.
  unfold bind, call, ret. simpl. intros [= <- <-].
  exists hl, dr, lr. simpl. now rewrite <- !app_assoc.
Qed.

(** An epoch switches the model to training mode once, then to evaluation
    mode once, whether it returns or raises. *)
Lemma epoch_log train_ds val_ds bs s :
  exists ext,
    log (snd (epoch train_ds val_ds bs s)) = log s ++ ext /\
    List.filter is_mode_switch ext = [ModelTrain; ModelEval].
Proof.
  unfold epoch.
  destruct (train_phase_trace train_ds bs s) as (s1 & E1 & L1).
  rewrite (bind_ok _ _ _ _ _ E1).
  destruct (validate_phase_trace val_ds bs s1) as [_ L2].
  eexists. split.
  - rewrite L2, L1. rewrite <- app_assoc. reflexivity.
  - simpl. rewrite List.filter_app, filter_batch_steps. simpl.
    rewrite List.filter_app, filter_validate_steps. reflexivity.
Qed.

Lemma epoch_loop_log n train_ds val_ds bs best s r s' :
  epoch_loop n train_ds val_ds bs best s = (Ok r, s') ->
  exists ext,
    log s' = log s ++ ext /\
    List.filter is_mode_switch ext = concat (replicate n [ModelTrain; ModelEval]).
Proof.
  revert best s. induction n as [|n IH]; intros best s E.
  - simpl in E. unfold ret in E. injection E as <- <-.
    exists []. split; [now rewrite app_nil_r|reflexivity].
  - rewrite epoch_loop_S in E. unfold bind in E.
    destruct (epoch_log train_ds val_ds bs s) as (ext1 & L1 & F1).
    destruct (epoch train_ds val_ds bs s) as [[v|e] s1]; [|discriminate].
    simpl in L1. destruct (IH _ _ E) as (ext2 & L2 & F2).
    exists (ext1 ++ ext2). split.
    + rewrite L2, L1. now rewrite <- app_assoc.
    + rewrite List.filter_app, F1, F2. reflexivity.
Qed.

(** X12. The log of a call that returns starts with the progress message
    about [params] and ends with the summary message, which carries the very
    loss that is returned; in between, the model is switched to training
    mode and then to evaluation mode exactly [num_epochs] times, in strict
    alternation. *)
Theorem train_and_evaluate_log
    params input_dim train_ds val_ds num_epochs s best p s' :
  train_and_evaluate params input_dim train_ds val_ds num_epochs s = (Ok (best, p), s') ->
  exists mid,
    log s' = log s ++ Print "Testing configuration: " params :: mid
               ++ [Print "Validation Loss: " (VFloat best)] /\
    List.filter is_mode_switch mid
    = concat (replicate (Z.to_nat num_epochs) [ModelTrain; ModelEval]).
Proof.
  intros E. unfold train_and_evaluate in E. unfold bind at 1 in E.
  destruct (setup params input_dim train_ds val_ds s) as [[bs|e] s1] eqn:E1;
    [|discriminate].
  apply setup_ok_log in E1 as (hl & dr & lr & L1).
  unfold bind at 1 in E.
  destruct (epoch_loop _ train_ds val_ds bs float_inf s1) as [[r|e] s2] eqn:E2;
    [|discriminate].
  apply epoch_loop_log in E2 as (ext & L2 & F2).
  unfold bind, call, ret in E. simpl in E. injection E as <- <- <-.
  exists ([ModelInit input_dim hl dr; AdamInit lr; LoaderInit train_ds bs true;
           LoaderInit val_ds bs false] ++ ext).
  split.
  - simpl. rewrite L2, L1. rewrite <- !app_assoc. reflexivity.
  - rewrite List.filter_app. simpl. exact F2.
Qed.

End TrainerLog.

(** ** The two functions together *)

Section SampleThenTrain.
Context {R W B D : Type} `{!RandomSource R} `{!Framework W B D}.
Implicit Types (s : state R W B D).

(** X13. Whatever [sample_hyperparameters] returns is a configuration that
    [train_and_evaluate] accepts: the four lookups succeed, and the call
    returns the sampled configuration whenever the validation loader for
    the sampled batch size yields a batch or there is no epoch to run. *)
Theorem sample_then_train ps s cfg s1 :
  sample_hyperparameters ps s = (Ok cfg, s1) ->
  exists hl dr lr bs,
    is_config (heap s1) cfg hl dr lr bs /\
    forall input_dim train_ds val_ds num_epochs,
      fw_batches val_ds bs <> [] \/ (num_epochs <= 0)%Z ->
      exists best s2,
        train_and_evaluate cfg input_dim train_ds val_ds num_epochs s1
        = (Ok (best, cfg), s2).
Proof.
  intros E. pose proof (sample_hyperparameters_outcome ps s) as (_ & _ & Hout).
  rewrite E in Hout. simpl in Hout.
  destruct Hout as (hl & dr & lr & bs & -> & Hheap).
  assert (Hcfg : is_config (heap s1) (VRef (fresh (dom (heap s)))) hl dr lr bs).
  { exists (fresh (dom (heap s))), (fields_dict hl dr lr bs).
    split; [reflexivity|]. rewrite Hheap. split; [apply lookup_insert_eq|].
    unfold fields_dict. simpl. now simplify_map_eq. }
  exists hl, dr, lr, bs. split; [exact Hcfg|].
  intros input_dim train_ds val_ds num_epochs Hcase.
  eapply train_and_evaluate_returns; eauto.
Qed.

End SampleThenTrain.

(** The batch losses of the run of two epochs: 6.0 three times, then 4.0
    three times. *)
Example run_two_epochs_losses :
  validation_batch_losses (VRef 1) (VInt 3) [1; 2] [5; 6; 7] 2
    (Demo.start Demo.config_heap 0)
  = [[float_of_int 6; float_of_int 6; float_of_int 6];
     [float_of_int 4; float_of_int 4; float_of_int 4]].
Proof. vm_compute. reflexivity. Qed.


(** * The further properties on concrete runs *)

Lemma sample_hyperparameters_returns_new_dict_witness :
  exists lc d,
    VRef 8 = VRef lc /\ Demo.small_space !! lc = None /\
    heap (snd (sample_hyperparameters (VRef 1) (Demo.start Demo.small_space 3)))
    = <[lc := ODict d]> Demo.small_space /\
    dom d = list_to_set required_keys /\
    world (snd (sample_hyperparameters (VRef 1) (Demo.start Demo.small_space 3))) = 0%Z /\
    log (snd (sample_hyperparameters (VRef 1) (Demo.start Demo.small_space 3))) = [].
Proof.
  apply (sample_hyperparameters_returns_new_dict (VRef 1)
           (Demo.start Demo.small_space 3) (VRef 8)
           (snd (sample_hyperparameters (VRef 1) (Demo.start Demo.small_space 3)))).
  vm_compute. reflexivity.
Defined.

Lemma sample_hyperparameters_raise_frame_witness :
  same_but_rand (Demo.start Demo.no_learning_rate_space 0)
    (snd (sample_hyperparameters (VRef 1) (Demo.start Demo.no_learning_rate_space 0))).
Proof.
  apply (sample_hyperparameters_raise_frame (VRef 1)
           (Demo.start Demo.no_learning_rate_space 0)
           (KeyError (VStr "learning_rate"))).
  vm_compute. reflexivity.
Defined.

Lemma sample_hyperparameters_four_draws_witness :
  let d1 := randbelow 3 2 in
  let d2 := randbelow (snd d1) 2 in
  let d3 := randbelow (snd d2) 1 in
  let d4 := randbelow (snd d3) 3 in
  exists v1 v2 v3 v4 s',
    [VRef 6; VRef 7] !! fst d1 = Some v1 /\
    [VFloat float_zero; VFloat float_0_01] !! fst d2 = Some v2 /\
    [VFloat float_0_01] !! fst d3 = Some v3 /\
    [VInt 4; VInt 8; VInt 16] !! fst d4 = Some v4 /\
    sample_hyperparameters (VRef 1) (Demo.start Demo.small_space 3)
    = (Ok (VRef (fresh (dom Demo.small_space))), s') /\
    heap s' !! fresh (dom Demo.small_space) = Some (ODict (fields_dict v1 v2 v3 v4)) /\
    rand s' = snd d4.
Proof.
  apply (sample_hyperparameters_four_draws (Demo.start Demo.small_space 3) 1
           (fields_dict (VRef 2) (VRef 3) (VRef 4) (VRef 5)) 2 3 4 5
           [VRef 6; VRef 7] [VFloat float_zero; VFloat float_0_01]
           [VFloat float_0_01] [VInt 4; VInt 8; VInt 16]);
    solve [vm_compute; reflexivity | discriminate].
Defined.

Lemma sample_hyperparameters_empty_list_witness :
  fst (sample_hyperparameters (VRef 1) (Demo.start Demo.empty_dropout_space 0))
  = Raise IndexError.
Proof.
  apply (sample_hyperparameters_empty_list (Demo.start Demo.empty_dropout_space 0) 1
           (fields_dict (VRef 2) (VRef 3) (VRef 4) (VRef 5))
           ["hidden_layers"] "dropout_rate" ["learning_rate"; "batch_size"] 3).
  - vm_compute. reflexivity.
  - reflexivity.
  - vm_compute. reflexivity.
  - vm_compute. reflexivity.
  - constructor; [|constructor].
    exists 2%positive, [VRef 6]. repeat split; try discriminate; vm_compute; reflexivity.
Defined.

Lemma validate_phase_nan_witness :
  fst (validate_phase [5; 6; 7] (VInt 4) Demo.spiky_start) = Ok S754_nan.
Proof.
  apply (validate_phase_nan [5; 6; 7] (VInt 4) Demo.spiky_start).
  vm_compute. apply Exists_cons_tl, Exists_cons_hd. reflexivity.
Defined.

Lemma train_and_evaluate_missing_key_witness :
  train_and_evaluate (VRef 1) (VInt 3) [1; 2] [5; 6; 7] 2
    (Demo.start Demo.no_learning_rate_space 0)
  = (Raise (KeyError (VStr "learning_rate")),
     State Demo.no_learning_rate_space 0 0%Z
       ([] ++ [Print "Testing configuration: " (VRef 1)])).
Proof.
  refine (train_and_evaluate_missing_key 1
           (list_to_map [("hidden_layers", VRef 2); ("dropout_rate", VRef 3);
                         ("batch_size", VRef 5)])
           ["hidden_layers"; "dropout_rate"] "learning_rate" ["batch_size"]
           (VInt 3) [1; 2] [5; 6; 7] 2 (Demo.start Demo.no_learning_rate_space 0)
           _ _ _ _).
  - vm_compute. reflexivity.
  - reflexivity.
  - vm_compute. reflexivity.
  - repeat constructor; vm_compute; discriminate.
Defined.

Lemma train_and_evaluate_empty_validation_log_witness :
  exists s1 s',
    setup (VRef 1) (VInt 3) [1; 2] [] (Demo.start Demo.config_heap 0)
    = (Ok (VInt 4), s1) /\
    train_and_evaluate (VRef 1) (VInt 3) [1; 2] [] 2 (Demo.start Demo.config_heap 0)
    = (Raise ZeroDivisionError, s') /\
    log s' = [] ++
      [Print "Testing configuration: " (VRef 1);
       ModelInit (VInt 3) (VRef 2) (VFloat float_zero);
       AdamInit (VFloat float_0_01); LoaderInit [1; 2] (VInt 4) true;
       LoaderInit [] (VInt 4) false]
      ++ ModelTrain ::
         flat_map batch_steps
           (fst (fw_shuffled [1; 2] (VInt 4) (fw_exec (heap s1) ModelTrain (world s1))))
      ++ [ModelEval; NoGradEnter; NoGradExit].
Proof.
  apply (train_and_evaluate_empty_validation_log (VRef 1) (VInt 3) [1; 2] [] 2
           (Demo.start Demo.config_heap 0)
           (VRef 2) (VFloat float_zero) (VFloat float_0_01) (VInt 4)).
  - lia.
  - exact config_heap_is_config.
  - reflexivity.
Defined.

Lemma train_and_evaluate_returns_iff_witness :
  (exists best s',
     train_and_evaluate (VRef 1) (VInt 3) [1; 2] [5; 6; 7] 2
       (Demo.start Demo.config_heap 0)
     = (Ok (best, VRef 1), s'))
  <-> fw_batches (W:=Z) [5; 6; 7] (VInt 4) <> [].
Proof.
  apply (train_and_evaluate_returns_iff (VRef 1) (VInt 3) [1; 2] [5; 6; 7] 2
           (Demo.start Demo.config_heap 0)
           (VRef 2) (VFloat float_zero) (VFloat float_0_01) (VInt 4)).
  - lia.
  - exact config_heap_is_config.
Defined.

Lemma train_and_evaluate_one_more_epoch_witness :
  float_le (float_of_int 4) (float_of_int 6) = true.
Proof.
  apply (train_and_evaluate_one_more_epoch (VRef 1) (VInt 3) [1; 2] [5; 6; 7] 1
           (Demo.start Demo.config_heap 0)
           (float_of_int 6) (VRef 1)
           (snd (train_and_evaluate (VRef 1) (VInt 3) [1; 2] [5; 6; 7] 1
                   (Demo.start Demo.config_heap 0)))
           (float_of_int 4) (VRef 1) (snd Demo.run_two_epochs)).
  - lia.
  - vm_compute. reflexivity.
  - vm_compute. reflexivity.
Defined.

Lemma train_and_evaluate_log_witness :
  exists mid,
    log (snd Demo.run_two_epochs)
    = [] ++ Print "Testing configuration: " (VRef 1) :: mid
        ++ [Print "Validation Loss: " (VFloat (float_of_int 4))] /\
    List.filter is_mode_switch mid
    = concat (replicate (Z.to_nat 2) [ModelTrain; ModelEval]).
Proof.
  apply (train_and_evaluate_log (VRef 1) (VInt 3) [1; 2] [5; 6; 7] 2
           (Demo.start Demo.config_heap 0) (float_of_int 4) (VRef 1)
           (snd Demo.run_two_epochs)).
  vm_compute. reflexivity.
Defined.

Lemma sample_then_train_witness :
  exists hl dr lr bs,
    is_config
      (heap (snd (sample_hyperparameters (VRef 1) (Demo.start Demo.small_space 3))))
      (VRef 8) hl dr lr bs /\
    forall input_dim train_ds val_ds num_epochs,
      fw_batches (W:=Z) val_ds bs <> [] \/ (num_epochs <= 0)%Z ->
      exists best s2,
        train_and_evaluate (VRef 8) input_dim train_ds val_ds num_epochs
          (snd (sample_hyperparameters (VRef 1) (Demo.start Demo.small_space 3)))
        = (Ok (best, VRef 8), s2).
Proof.
  apply (sample_then_train (VRef 1) (Demo.start Demo.small_space 3) (VRef 8)
           (snd (sample_hyperparameters (VRef 1) (Demo.start Demo.small_space 3)))).
  vm_compute. reflexivity.
Defined.
